(** * FlowForge backend: the task list and the organization tree

    A shallow embedding of [backend/app] (models.py, schemas.py, crud.py,
    routers.py, org_routers.py) and the properties of its repository
    functions and request handlers.

    The relational store is a record of four tables.  A table keeps its rows
    in insertion order together with the next primary key to hand out.
    Every repository function is a computation over that store which either
    returns a value or raises, and which yields the store it leaves behind. *)

From Stdlib Require Import ZArith List String Bool Lia Permutation Sorted.
Import ListNotations.
Local Open Scope Z_scope.

(** ** database: tables, statements and the query interface *)

Module database.

(** Modelled from the spec: database.py (engine, session factory, [Base],
    [get_db]) is not part of the sources.  The spec (sections 3, 4.1, 6, 7)
    describes a relational store that assigns the primary key on insertion,
    lists rows in insertion order, and enforces the declared keys.  A table
    is modelled as the list of its rows, oldest first, and a counter. *)
Record Table (R : Type) : Type := mkTable {
  rows : list R;
  next_id : Z
}.
Arguments mkTable {R} _ _.
Arguments rows {R} _.
Arguments next_id {R} _.

Definition empty_table {R : Type} : Table R := mkTable [] 1.

(** A mapped class has a primary key column [id]. *)
Class Mapped (R : Type) : Type := { pk : R -> Z }.

Section Statements.
Context {R : Type} `{Mapped R}.

(** INSERT: the store assigns the key and appends the row. *)
Definition insert (mk : Z -> R) (t : Table R) : R * Table R :=
  let r := mk (next_id t) in
  (r, mkTable (rows t ++ [r]) (next_id t + 1)).

(** UPDATE ... WHERE id = pk r: the row is rewritten in place. *)
Definition update (r : R) (t : Table R) : Table R :=
  mkTable (map (fun x => if pk x =? pk r then r else x) (rows t)) (next_id t).

(** DELETE ... WHERE id = pk r. *)
Definition delete (r : R) (t : Table R) : Table R :=
  mkTable (filter (fun x => negb (pk x =? pk r)) (rows t)) (next_id t).
End Statements.

(** The part of the query interface that crud.py uses:
    [db.query(C).filter(p).offset(skip).limit(limit).all()] and [.first()].
    [skip] and [limit] are unconstrained Python integers.  What a negative
    OFFSET or LIMIT means depends on the store; here a negative OFFSET skips
    nothing and a negative LIMIT puts no bound. *)
Module Query.
Section Query.
Context {R : Type}.
Definition filter (p : R -> bool) (q : list R) : list R := List.filter p q.
Definition offset (skip : Z) (q : list R) : list R := skipn (Z.to_nat skip) q.
Definition limit (lim : Z) (q : list R) : list R :=
  if lim <? 0 then q else firstn (Z.to_nat lim) q.
Definition all (q : list R) : list R := q.
Definition first (q : list R) : option R := hd_error q.
End Query.
End Query.

End database.
Import database.

(** ** models.py *)

Module models.

Module Task.
Record t : Type := mk {
  id : Z;
  title : string;
  description : option string;
  completed : bool;
  created_at : Z;                (* server_default=func.now() *)
  updated_at : option Z          (* onupdate=func.now() *)
}.
End Task.

Module Department.
Record t : Type := mk {
  id : Z;
  name : string;
  description : option string;
  created_at : Z;
  updated_at : option Z
}.
End Department.

Module Role.
Record t : Type := mk {
  id : Z;
  name : string;
  description : option string;
  department_id : Z;             (* ForeignKey("departments.id") *)
  created_at : Z;
  updated_at : option Z
}.
End Role.

Module Function.
Record t : Type := mk {
  id : Z;
  name : string;
  description : option string;
  role_id : Z;                   (* ForeignKey("roles.id") *)
  created_at : Z;
  updated_at : option Z
}.
End Function.

#[export] Instance Task_mapped : Mapped Task.t := {| pk := Task.id |}.
#[export] Instance Department_mapped : Mapped Department.t := {| pk := Department.id |}.
#[export] Instance Role_mapped : Mapped Role.t := {| pk := Role.id |}.
#[export] Instance Function_mapped : Mapped Function.t := {| pk := Function.id |}.

(** [Base.metadata]: the four tables. *)
Record DB : Type := mkDB {
  tasks : Table Task.t;
  departments : Table Department.t;
  roles : Table Role.t;
  functions : Table Function.t
}.

Definition empty_db : DB := mkDB empty_table empty_table empty_table empty_table.

Definition set_tasks (t : Table Task.t) (db : DB) : DB :=
  mkDB t (departments db) (roles db) (functions db).
Definition set_departments (t : Table Department.t) (db : DB) : DB :=
  mkDB (tasks db) t (roles db) (functions db).
Definition set_roles (t : Table Role.t) (db : DB) : DB :=
  mkDB (tasks db) (departments db) t (functions db).
Definition set_functions (t : Table Function.t) (db : DB) : DB :=
  mkDB (tasks db) (departments db) (roles db) t.

(** [db.query(models.C)]: all rows of the table of [C], in storage order. *)
Definition query_Task (db : DB) : list Task.t := rows (tasks db).
Definition query_Department (db : DB) : list Department.t := rows (departments db).
Definition query_Role (db : DB) : list Role.t := rows (roles db).
Definition query_Function (db : DB) : list Function.t := rows (functions db).

(** [Department.roles = relationship("Role", ...)]: the collection is loaded
    from the roles whose [department_id] is the department's key. *)
Definition Department_roles (d : Department.t) (db : DB) : list Role.t :=
  Query.all (Query.filter (fun r => Role.department_id r =? Department.id d) (query_Role db)).

(** [Role.functions = relationship("Function", ...)]. *)
Definition Role_functions (r : Role.t) (db : DB) : list Function.t :=
  Query.all (Query.filter (fun f => Function.role_id f =? Role.id r) (query_Function db)).

End models.
Import models.

(** ** schemas.py *)

Module schemas.

Module TaskCreate.
Record t : Type := mk {
  title : string;
  description : option string;   (* Optional[str] = None *)
  completed : bool               (* bool = False *)
}.
End TaskCreate.

Module DepartmentCreate.
Record t : Type := mk {
  name : string;
  description : option string
}.
End DepartmentCreate.

Module RoleCreate.
Record t : Type := mk {
  name : string;
  description : option string;
  department_id : Z
}.
End RoleCreate.

Module FunctionCreate.
Record t : Type := mk {
  name : string;
  description : option string;
  role_id : Z
}.
End FunctionCreate.

(** The flat response schemas [Task], [Department], [Role] and [Function]
    carry the columns of the mapped class of the same name ([orm_mode]
    reads them off the row), so a flat response is the row itself. *)
Definition Task := models.Task.t.
Definition Department := models.Department.t.
Definition Role := models.Role.t.
Definition Function := models.Function.t.

(** [class DepartmentWithRoles(Department): roles: List["Role"] = []] *)
Module DepartmentWithRoles.
Record t : Type := mk {
  department : Department;
  roles : list Role
}.
(** [orm_mode]: [roles] is read from the relationship of the row. *)
Definition from_orm (d : models.Department.t) (db : DB) : t :=
  mk d (Department_roles d db).
End DepartmentWithRoles.

(** [class RoleWithFunctions(Role): functions: List["Function"] = []] *)
Module RoleWithFunctions.
Record t : Type := mk {
  role : Role;
  functions : list Function
}.
Definition from_orm (r : models.Role.t) (db : DB) : t :=
  mk r (Role_functions r db).
End RoleWithFunctions.

End schemas.
Import schemas.

(** ** The session: a computation over the store that returns or raises *)

Module session.

Inductive Exception : Type :=
| IntegrityError                                   (* a declared key is violated *)
| InvalidRequestError                              (* refresh of a row that is gone *)
| HTTPException (status_code : Z) (detail : string).

(** Either way the computation leaves a store behind. *)
Inductive Outcome (A : Type) : Type :=
| Return (a : A) (db : DB)
| Raise (e : Exception) (db : DB).
Arguments Return {A} _ _.
Arguments Raise {A} _ _.

Definition M (A : Type) : Type := DB -> Outcome A.

Definition ret {A : Type} (a : A) : M A := fun db => Return a db.

Definition raise {A : Type} (e : Exception) : M A := fun db => Raise e db.

Definition bind {A B : Type} (m : M A) (k : A -> M B) : M B :=
  fun db => match m db with
            | Return a db' => k a db'
            | Raise e db' => Raise e db'
            end.

Definition final {A : Type} (o : Outcome A) : DB :=
  match o with Return _ db => db | Raise _ db => db end.

(** A query reads the store and leaves it as it is. *)
Definition select {A : Type} (q : DB -> A) : M A := fun db => Return (q db) db.

(** A statement rewrites the store. *)
Definition execute (f : DB -> DB) : M unit := fun db => Return tt (f db).

(** [db.commit()] flushes the pending statements in one transaction: when
    one of them raises, none of them has taken effect. *)
Definition commit {A : Type} (flush : M A) : M A :=
  fun db => match flush db with
            | Return a db' => Return a db'
            | Raise e _ => Raise e db
            end.

End session.
Import session.

Notation "x <- c1 ;; c2" := (bind c1 (fun x => c2))
  (at level 61, c1 at next level, right associativity).
Notation "c1 ;; c2" := (bind c1 (fun _ => c2))
  (at level 61, right associativity).

Fixpoint for_each {A : Type} (f : A -> M unit) (l : list A) : M unit :=
  match l with
  | [] => ret tt
  | a :: l' => f a ;; for_each f l'
  end.

Definition option_eqb {A : Type} (eqb : A -> A -> bool) (x y : option A) : bool :=
  match x, y with
  | Some a, Some b => eqb a b
  | None, None => true
  | _, _ => false
  end.

(** ** The unit of work of the mapper, one class at a time *)

Module orm.

(** The row built from the keyword arguments [task.dict()], and what the
    INSERT adds to it: the key the
    store assigns and [created_at], the server default [now()]; [updated_at]
    has no default and stays null. *)
Definition Task_new (now : Z) (task : TaskCreate.t) (id : Z) : Task.t :=
  Task.mk id (TaskCreate.title task) (TaskCreate.description task)
    (TaskCreate.completed task) now None.

Definition Department_new (now : Z) (department : DepartmentCreate.t) (id : Z) : Department.t :=
  Department.mk id (DepartmentCreate.name department)
    (DepartmentCreate.description department) now None.

Definition Role_new (now : Z) (role : RoleCreate.t) (id : Z) : Role.t :=
  Role.mk id (RoleCreate.name role) (RoleCreate.description role)
    (RoleCreate.department_id role) now None.

Definition Function_new (now : Z) (function : FunctionCreate.t) (id : Z) : Function.t :=
  Function.mk id (FunctionCreate.name function) (FunctionCreate.description function)
    (FunctionCreate.role_id function) now None.

(** [for key, value in task.dict().items(): setattr(db_task, key, value)] *)
Definition Task_setattrs (task : TaskCreate.t) (db_task : Task.t) : Task.t :=
  Task.mk (Task.id db_task) (TaskCreate.title task) (TaskCreate.description task)
    (TaskCreate.completed task) (Task.created_at db_task) (Task.updated_at db_task).

Definition Department_setattrs (department : DepartmentCreate.t) (db_department : Department.t)
  : Department.t :=
  Department.mk (Department.id db_department) (DepartmentCreate.name department)
    (DepartmentCreate.description department)
    (Department.created_at db_department) (Department.updated_at db_department).

Definition Role_setattrs (role : RoleCreate.t) (db_role : Role.t) : Role.t :=
  Role.mk (Role.id db_role) (RoleCreate.name role) (RoleCreate.description role)
    (RoleCreate.department_id role) (Role.created_at db_role) (Role.updated_at db_role).

Definition Function_setattrs (function : FunctionCreate.t) (db_function : Function.t)
  : Function.t :=
  Function.mk (Function.id db_function) (FunctionCreate.name function)
    (FunctionCreate.description function) (FunctionCreate.role_id function)
    (Function.created_at db_function) (Function.updated_at db_function).

(** The flush compares each attribute that was set with the value loaded
    from the row; an object none of whose columns has a new value is clean. *)
Definition Task_clean (old new : Task.t) : bool :=
  String.eqb (Task.title old) (Task.title new)
  && option_eqb String.eqb (Task.description old) (Task.description new)
  && Bool.eqb (Task.completed old) (Task.completed new).

Definition Department_clean (old new : Department.t) : bool :=
  String.eqb (Department.name old) (Department.name new)
  && option_eqb String.eqb (Department.description old) (Department.description new).

Definition Role_clean (old new : Role.t) : bool :=
  String.eqb (Role.name old) (Role.name new)
  && option_eqb String.eqb (Role.description old) (Role.description new)
  && (Role.department_id old =? Role.department_id new).

Definition Function_clean (old new : Function.t) : bool :=
  String.eqb (Function.name old) (Function.name new)
  && option_eqb String.eqb (Function.description old) (Function.description new)
  && (Function.role_id old =? Function.role_id new).

(** [onupdate=func.now()]: an UPDATE statement stamps the row. *)
Definition Task_onupdate (now : Z) (t : Task.t) : Task.t :=
  Task.mk (Task.id t) (Task.title t) (Task.description t) (Task.completed t)
    (Task.created_at t) (Some now).

Definition Department_onupdate (now : Z) (d : Department.t) : Department.t :=
  Department.mk (Department.id d) (Department.name d) (Department.description d)
    (Department.created_at d) (Some now).

Definition Role_onupdate (now : Z) (r : Role.t) : Role.t :=
  Role.mk (Role.id r) (Role.name r) (Role.description r) (Role.department_id r)
    (Role.created_at r) (Some now).

Definition Function_onupdate (now : Z) (f : Function.t) : Function.t :=
  Function.mk (Function.id f) (Function.name f) (Function.description f)
    (Function.role_id f) (Function.created_at f) (Some now).

(** The declared foreign keys, as the store checks them. *)
Definition department_exists (department_id : Z) (db : DB) : bool :=
  existsb (fun d => Department.id d =? department_id) (query_Department db).

Definition role_exists (role_id : Z) (db : DB) : bool :=
  existsb (fun r => Role.id r =? role_id) (query_Role db).

Definition department_referenced (department_id : Z) (db : DB) : bool :=
  existsb (fun r => Role.department_id r =? department_id) (query_Role db).

Definition role_referenced (role_id : Z) (db : DB) : bool :=
  existsb (fun f => Function.role_id f =? role_id) (query_Function db).

End orm.
Import orm.

Module unit_of_work.

(** [db.add(x); db.commit()]: one INSERT.  The roles and functions tables
    declare a foreign key, which the store checks. *)
Definition add_Task (now : Z) (task : TaskCreate.t) : M Task.t :=
  commit (fun db =>
    let (db_task, t) := insert (Task_new now task) (tasks db) in
    Return db_task (set_tasks t db)).

Definition add_Department (now : Z) (department : DepartmentCreate.t) : M Department.t :=
  commit (fun db =>
    let (db_department, t) := insert (Department_new now department) (departments db) in
    Return db_department (set_departments t db)).

Definition add_Role (now : Z) (role : RoleCreate.t) : M Role.t :=
  commit (fun db =>
    if department_exists (RoleCreate.department_id role) db then
      let (db_role, t) := insert (Role_new now role) (roles db) in
      Return db_role (set_roles t db)
    else Raise IntegrityError db).

Definition add_Function (now : Z) (function : FunctionCreate.t) : M Function.t :=
  commit (fun db =>
    if role_exists (FunctionCreate.role_id function) db then
      let (db_function, t) := insert (Function_new now function) (functions db) in
      Return db_function (set_functions t db)
    else Raise IntegrityError db).

(** [db.commit()] after the [setattr] loop: a clean object is skipped; a
    dirty one is written by one UPDATE, which also stamps [updated_at].  A
    foreign key is checked when its column is written. *)
Definition flush_Task (now : Z) (old new : Task.t) : M unit :=
  if Task_clean old new then ret tt
  else commit (execute (fun db => set_tasks (update (Task_onupdate now new) (tasks db)) db)).

Definition flush_Department (now : Z) (old new : Department.t) : M unit :=
  if Department_clean old new then ret tt
  else commit (execute (fun db =>
         set_departments (update (Department_onupdate now new) (departments db)) db)).

Definition flush_Role (now : Z) (old new : Role.t) : M unit :=
  if Role_clean old new then ret tt
  else commit (fun db =>
         if (Role.department_id old =? Role.department_id new)
            || department_exists (Role.department_id new) db
         then Return tt (set_roles (update (Role_onupdate now new) (roles db)) db)
         else Raise IntegrityError db).

Definition flush_Function (now : Z) (old new : Function.t) : M unit :=
  if Function_clean old new then ret tt
  else commit (fun db =>
         if (Function.role_id old =? Function.role_id new)
            || role_exists (Function.role_id new) db
         then Return tt (set_functions (update (Function_onupdate now new) (functions db)) db)
         else Raise IntegrityError db).

(** The DELETE statements.  A row that another row still refers to cannot
    be deleted. *)
Definition DELETE_Task (t : Task.t) : M unit :=
  execute (fun db => set_tasks (delete t (tasks db)) db).

Definition DELETE_Function (f : Function.t) : M unit :=
  execute (fun db => set_functions (delete f (functions db)) db).

Definition DELETE_Role (r : Role.t) : M unit :=
  fun db => if role_referenced (Role.id r) db then Raise IntegrityError db
            else Return tt (set_roles (delete r (roles db)) db).

Definition DELETE_Department (d : Department.t) : M unit :=
  fun db => if department_referenced (Department.id d) db then Raise IntegrityError db
            else Return tt (set_departments (delete d (departments db)) db).

(** [db.delete(x); db.commit()].  The relationships are declared with
    [cascade="all, delete-orphan"]: the members of [Department.roles], and
    of [Role.functions] for each of them, are deleted with their owner;
    the flush deletes the dependent rows first. *)
Definition delete_Task (t : Task.t) : M unit :=
  commit (DELETE_Task t).

Definition delete_Function (f : Function.t) : M unit :=
  commit (DELETE_Function f).

Definition delete_Role (r : Role.t) : M unit :=
  fs <- select (Role_functions r) ;;
  commit (for_each DELETE_Function fs ;; DELETE_Role r).

Definition delete_Department (d : Department.t) : M unit :=
  rs <- select (Department_roles d) ;;
  fs <- select (fun db => flat_map (fun r => Role_functions r db) rs) ;;
  commit (for_each DELETE_Function fs ;; for_each DELETE_Role rs ;; DELETE_Department d).

(** [db.refresh(x)]: the row is read again by its key. *)
Definition refresh_Task (t : Task.t) : M Task.t :=
  fun db =>
    match Query.first (Query.filter (fun x => Task.id x =? Task.id t) (query_Task db)) with
    | Some t' => Return t' db
    | None => Raise InvalidRequestError db
    end.

Definition refresh_Department (d : Department.t) : M Department.t :=
  fun db =>
    match Query.first (Query.filter (fun x => Department.id x =? Department.id d)
                         (query_Department db)) with
    | Some d' => Return d' db
    | None => Raise InvalidRequestError db
    end.

Definition refresh_Role (r : Role.t) : M Role.t :=
  fun db =>
    match Query.first (Query.filter (fun x => Role.id x =? Role.id r) (query_Role db)) with
    | Some r' => Return r' db
    | None => Raise InvalidRequestError db
    end.

Definition refresh_Function (f : Function.t) : M Function.t :=
  fun db =>
    match Query.first (Query.filter (fun x => Function.id x =? Function.id f)
                         (query_Function db)) with
    | Some f' => Return f' db
    | None => Raise InvalidRequestError db
    end.

End unit_of_work.
Import unit_of_work.

(** ** crud.py

    Each function takes, besides the arguments of the source, the reading
    [now] of the store's clock where a statement uses [func.now()]. *)

Module crud.

Definition get_task (task_id : Z) : M (option Task.t) :=
  select (fun db => Query.first (Query.filter (fun t => Task.id t =? task_id) (query_Task db))).

Definition get_tasks (skip limit : Z) : M (list Task.t) :=
  select (fun db => Query.all (Query.limit limit (Query.offset skip (query_Task db)))).

Definition create_task (now : Z) (task : TaskCreate.t) : M Task.t :=
  db_task <- add_Task now task ;;
  refresh_Task db_task.

Definition update_task (now : Z) (task_id : Z) (task : TaskCreate.t) : M (option Task.t) :=
  db_task <- get_task task_id ;;
  match db_task with
  | Some db_task =>
      let db_task' := Task_setattrs task db_task in
      flush_Task now db_task db_task' ;;
      db_task'' <- refresh_Task db_task' ;;
      ret (Some db_task'')
  | None => ret None
  end.

Definition delete_task (task_id : Z) : M (option Task.t) :=
  db_task <- get_task task_id ;;
  match db_task with
  | Some db_task => delete_Task db_task ;; ret (Some db_task)
  | None => ret None
  end.

Definition get_department (department_id : Z) : M (option Department.t) :=
  select (fun db => Query.first (Query.filter (fun d => Department.id d =? department_id)
                                   (query_Department db))).

Definition get_departments (skip limit : Z) : M (list Department.t) :=
  select (fun db => Query.all (Query.limit limit (Query.offset skip (query_Department db)))).

Definition create_department (now : Z) (department : DepartmentCreate.t) : M Department.t :=
  db_department <- add_Department now department ;;
  refresh_Department db_department.

Definition update_department (now : Z) (department_id : Z) (department : DepartmentCreate.t)
  : M (option Department.t) :=
  db_department <- get_department department_id ;;
  match db_department with
  | Some db_department =>
      let db_department' := Department_setattrs department db_department in
      flush_Department now db_department db_department' ;;
      db_department'' <- refresh_Department db_department' ;;
      ret (Some db_department'')
  | None => ret None
  end.

Definition delete_department (department_id : Z) : M (option Department.t) :=
  db_department <- get_department department_id ;;
  match db_department with
  | Some db_department => delete_Department db_department ;; ret (Some db_department)
  | None => ret None
  end.

Definition get_role (role_id : Z) : M (option Role.t) :=
  select (fun db => Query.first (Query.filter (fun r => Role.id r =? role_id) (query_Role db))).

Definition get_roles (skip limit : Z) : M (list Role.t) :=
  select (fun db => Query.all (Query.limit limit (Query.offset skip (query_Role db)))).

Definition get_roles_by_department (department_id : Z) (skip limit : Z) : M (list Role.t) :=
  select (fun db =>
    Query.all (Query.limit limit (Query.offset skip
      (Query.filter (fun r => Role.department_id r =? department_id) (query_Role db))))).

Definition create_role (now : Z) (role : RoleCreate.t) : M Role.t :=
  db_role <- add_Role now role ;;
  refresh_Role db_role.

Definition update_role (now : Z) (role_id : Z) (role : RoleCreate.t) : M (option Role.t) :=
  db_role <- get_role role_id ;;
  match db_role with
  | Some db_role =>
      let db_role' := Role_setattrs role db_role in
      flush_Role now db_role db_role' ;;
      db_role'' <- refresh_Role db_role' ;;
      ret (Some db_role'')
  | None => ret None
  end.

Definition delete_role (role_id : Z) : M (option Role.t) :=
  db_role <- get_role role_id ;;
  match db_role with
  | Some db_role => delete_Role db_role ;; ret (Some db_role)
  | None => ret None
  end.

Definition get_function (function_id : Z) : M (option Function.t) :=
  select (fun db => Query.first (Query.filter (fun f => Function.id f =? function_id)
                                   (query_Function db))).

Definition get_functions (skip limit : Z) : M (list Function.t) :=
  select (fun db => Query.all (Query.limit limit (Query.offset skip (query_Function db)))).

Definition get_functions_by_role (role_id : Z) (skip limit : Z) : M (list Function.t) :=
  select (fun db =>
    Query.all (Query.limit limit (Query.offset skip
      (Query.filter (fun f => Function.role_id f =? role_id) (query_Function db))))).

Definition create_function (now : Z) (function : FunctionCreate.t) : M Function.t :=
  db_function <- add_Function now function ;;
  refresh_Function db_function.

Definition update_function (now : Z) (function_id : Z) (function : FunctionCreate.t)
  : M (option Function.t) :=
  db_function <- get_function function_id ;;
  match db_function with
  | Some db_function =>
      let db_function' := Function_setattrs function db_function in
      flush_Function now db_function db_function' ;;
      db_function'' <- refresh_Function db_function' ;;
      ret (Some db_function'')
  | None => ret None
  end.

Definition delete_function (function_id : Z) : M (option Function.t) :=
  db_function <- get_function function_id ;;
  match db_function with
  | Some db_function => delete_Function db_function ;; ret (Some db_function)
  | None => ret None
  end.

End crud.

(** ** routers.py and org_routers.py

    A handler runs in the session of its request.  [response_model] builds
    the body from what the handler returns, reading relationships from the
    same session.  An [HTTPException] carries its status code; any other
    exception reaches the client as a server error. *)

Definition response_model {A B : Type} (from_orm : A -> DB -> B) (handler : M A) : M B :=
  a <- handler ;; select (from_orm a).

Definition flat {A : Type} (a : A) (_ : DB) : A := a.

Definition status_code {A : Type} (o : Outcome A) : Z :=
  match o with
  | Return _ _ => 200
  | Raise (HTTPException code _) _ => code
  | Raise _ _ => 500
  end.

Definition body {A : Type} (o : Outcome A) : option A :=
  match o with
  | Return a _ => Some a
  | Raise _ _ => None
  end.

Module routers.

Definition read_tasks (skip limit : Z) : M (list schemas.Task) :=
  response_model flat (
    tasks <- crud.get_tasks skip limit ;;
    ret tasks).

Definition create_task (now : Z) (task : TaskCreate.t) : M schemas.Task :=
  response_model flat (crud.create_task now task).

Definition read_task (task_id : Z) : M schemas.Task :=
  response_model flat (
    db_task <- crud.get_task task_id ;;
    match db_task with
    | None => raise (HTTPException 404 "Task not found")
    | Some db_task => ret db_task
    end).

Definition update_task (now : Z) (task_id : Z) (task : TaskCreate.t) : M schemas.Task :=
  response_model flat (
    db_task <- crud.update_task now task_id task ;;
    match db_task with
    | None => raise (HTTPException 404 "Task not found")
    | Some db_task => ret db_task
    end).

Definition delete_task (task_id : Z) : M schemas.Task :=
  response_model flat (
    db_task <- crud.delete_task task_id ;;
    match db_task with
    | None => raise (HTTPException 404 "Task not found")
    | Some db_task => ret db_task
    end).

End routers.

Module org_routers.

Definition read_departments (skip limit : Z) : M (list schemas.Department) :=
  response_model flat (
    departments <- crud.get_departments skip limit ;;
    ret departments).

Definition create_department (now : Z) (department : DepartmentCreate.t)
  : M schemas.Department :=
  response_model flat (crud.create_department now department).

Definition read_department (department_id : Z) : M DepartmentWithRoles.t :=
  response_model DepartmentWithRoles.from_orm (
    db_department <- crud.get_department department_id ;;
    match db_department with
    | None => raise (HTTPException 404 "Department not found")
    | Some db_department => ret db_department
    end).

Definition update_department (now : Z) (department_id : Z) (department : DepartmentCreate.t)
  : M schemas.Department :=
  response_model flat (
    db_department <- crud.update_department now department_id department ;;
    match db_department with
    | None => raise (HTTPException 404 "Department not found")
    | Some db_department => ret db_department
    end).

Definition delete_department (department_id : Z) : M schemas.Department :=
  response_model flat (
    db_department <- crud.delete_department department_id ;;
    match db_department with
    | None => raise (HTTPException 404 "Department not found")
    | Some db_department => ret db_department
    end).

Definition read_roles (skip limit : Z) : M (list schemas.Role) :=
  response_model flat (
    roles <- crud.get_roles skip limit ;;
    ret roles).

Definition read_roles_by_department (department_id : Z) (skip limit : Z)
  : M (list schemas.Role) :=
  response_model flat (
    roles <- crud.get_roles_by_department department_id skip limit ;;
    ret roles).

Definition create_role (now : Z) (role : RoleCreate.t) : M schemas.Role :=
  response_model flat (crud.create_role now role).

Definition read_role (role_id : Z) : M RoleWithFunctions.t :=
  response_model RoleWithFunctions.from_orm (
    db_role <- crud.get_role role_id ;;
    match db_role with
    | None => raise (HTTPException 404 "Role not found")
    | Some db_role => ret db_role
    end).

Definition update_role (now : Z) (role_id : Z) (role : RoleCreate.t) : M schemas.Role :=
  response_model flat (
    db_role <- crud.update_role now role_id role ;;
    match db_role with
    | None => raise (HTTPException 404 "Role not found")
    | Some db_role => ret db_role
    end).

Definition delete_role (role_id : Z) : M schemas.Role :=
  response_model flat (
    db_role <- crud.delete_role role_id ;;
    match db_role with
    | None => raise (HTTPException 404 "Role not found")
    | Some db_role => ret db_role
    end).

Definition read_functions (skip limit : Z) : M (list schemas.Function) :=
  response_model flat (
    functions <- crud.get_functions skip limit ;;
    ret functions).

Definition read_functions_by_role (role_id : Z) (skip limit : Z)
  : M (list schemas.Function) :=
  response_model flat (
    functions <- crud.get_functions_by_role role_id skip limit ;;
    ret functions).

Definition create_function (now : Z) (function : FunctionCreate.t) : M schemas.Function :=
  response_model flat (crud.create_function now function).

Definition read_function (function_id : Z) : M schemas.Function :=
  response_model flat (
    db_function <- crud.get_function function_id ;;
    match db_function with
    | None => raise (HTTPException 404 "Function not found")
    | Some db_function => ret db_function
    end).

Definition update_function (now : Z) (function_id : Z) (function : FunctionCreate.t)
  : M schemas.Function :=
  response_model flat (
    db_function <- crud.update_function now function_id function ;;
    match db_function with
    | None => raise (HTTPException 404 "Function not found")
    | Some db_function => ret db_function
    end).

Definition delete_function (function_id : Z) : M schemas.Function :=
  response_model flat (
    db_function <- crud.delete_function function_id ;;
    match db_function with
    | None => raise (HTTPException 404 "Function not found")
    | Some db_function => ret db_function
    end).

End org_routers.

(** ** Stores the program can reach *)

(** The keys of a table ascend and lie below its counter. *)
Definition keys {R : Type} `{Mapped R} (t : Table R) : list Z := map pk (rows t).

Definition table_ok {R : Type} `{Mapped R} (t : Table R) : Prop :=
  StronglySorted Z.lt (keys t) /\ Forall (fun k => k < next_id t) (keys t).

(** Every role refers to a stored department, every function to a stored
    role. *)
Definition references_ok (db : DB) : Prop :=
  Forall (fun r => In (Role.department_id r) (keys (departments db))) (rows (roles db))
  /\ Forall (fun f => In (Function.role_id f) (keys (roles db))) (rows (functions db)).

Definition wf (db : DB) : Prop :=
  table_ok (tasks db) /\ table_ok (departments db)
  /\ table_ok (roles db) /\ table_ok (functions db)
  /\ references_ok db.

Definition row_count (db : DB) : nat :=
  (List.length (rows (tasks db)) + List.length (rows (departments db))
   + List.length (rows (roles db)) + List.length (rows (functions db)))%nat.

(** The base fields of a stored row, in the shape of a payload. *)
Definition Task_fields (t : Task.t) : TaskCreate.t :=
  TaskCreate.mk (Task.title t) (Task.description t) (Task.completed t).

Definition Department_fields (d : Department.t) : DepartmentCreate.t :=
  DepartmentCreate.mk (Department.name d) (Department.description d).

Definition Role_fields (r : Role.t) : RoleCreate.t :=
  RoleCreate.mk (Role.name r) (Role.description r) (Role.department_id r).

Definition Function_fields (f : Function.t) : FunctionCreate.t :=
  FunctionCreate.mk (Function.name f) (Function.description f) (Function.role_id f).

(** The repository functions that write, as the requests a client can make. *)
Inductive Op : Type :=
| create_task (now : Z) (task : TaskCreate.t)
| update_task (now : Z) (task_id : Z) (task : TaskCreate.t)
| delete_task (task_id : Z)
| create_department (now : Z) (department : DepartmentCreate.t)
| update_department (now : Z) (department_id : Z) (department : DepartmentCreate.t)
| delete_department (department_id : Z)
| create_role (now : Z) (role : RoleCreate.t)
| update_role (now : Z) (role_id : Z) (role : RoleCreate.t)
| delete_role (role_id : Z)
| create_function (now : Z) (function : FunctionCreate.t)
| update_function (now : Z) (function_id : Z) (function : FunctionCreate.t)
| delete_function (function_id : Z).

(** The store an operation leaves behind, whether it returns or raises. *)
Definition run (op : Op) (db : DB) : DB :=
  match op with
  | create_task now task => final (crud.create_task now task db)
  | update_task now task_id task => final (crud.update_task now task_id task db)
  | delete_task task_id => final (crud.delete_task task_id db)
  | create_department now department => final (crud.create_department now department db)
  | update_department now department_id department =>
      final (crud.update_department now department_id department db)
  | delete_department department_id => final (crud.delete_department department_id db)
  | create_role now role => final (crud.create_role now role db)
  | update_role now role_id role => final (crud.update_role now role_id role db)
  | delete_role role_id => final (crud.delete_role role_id db)
  | create_function now function => final (crud.create_function now function db)
  | update_function now function_id function =>
      final (crud.update_function now function_id function db)
  | delete_function function_id => final (crud.delete_function function_id db)
  end.

(** How the key column of a table may change: keys are dropped, and keys
    that were not in use are appended; no key in use is rewritten. *)
Definition keys_evolve (before after : list Z) : Prop :=
  exists (keep : Z -> bool) (fresh : list Z),
    after = filter keep before ++ fresh /\ Forall (fun k => ~ In k before) fresh.

(** A small store: one task; two departments, the first with two roles, the
    second with one; three functions under the roles of the first department
    and one under the role of the second. *)
Definition sample_db : DB :=
  mkDB
    (mkTable [Task.mk 1 "Buy milk" None false 10 None] 2)
    (mkTable [Department.mk 1 "Engineering" None 10 None;
              Department.mk 2 "Sales" (Some "field"%string) 11 None] 3)
    (mkTable [Role.mk 1 "Backend" None 1 12 None;
              Role.mk 2 "Frontend" None 1 13 None;
              Role.mk 3 "Account" None 2 14 None] 4)
    (mkTable [Function.mk 1 "Deploy" None 1 15 None;
              Function.mk 2 "Review" None 1 16 None;
              Function.mk 3 "Design" None 2 17 None;
              Function.mk 4 "Call" None 3 18 None] 5).

(** The DELETE statements of one flush, applied to a table in turn. *)
Definition delete_all {R : Type} `{Mapped R} (ds : list R) (t : Table R) : Table R :=
  fold_left (fun t d => delete d t) ds t.

(** How the rows of a table may change: either every row after the
    operation comes from a row before it, in the same order and with the
    same key (rows may be dropped, and a row may be rewritten, but not its
    key); or one row whose key is the given unused one is appended and the
    rows before it are untouched. *)
Definition rows_evolve {R : Type} `{Mapped R} (before after : list R) (fresh : Z) : Prop :=
  (exists (same : R -> R) (keep : R -> bool),
      (forall x, pk (same x) = pk x) /\ after = map same (filter keep before))
  \/ (exists new, pk new = fresh /\ after = (before ++ [new])%list).

(** The stores the program reaches from the empty store. *)
Inductive reachable : DB -> Prop :=
| reachable_empty : reachable empty_db
| reachable_step (op : Op) (db : DB) : reachable db -> reachable (run op db).

(** * Properties *)

(** ** Lists of rows *)

Section Rows.
Context {R : Type} `{Mapped R}.

Lemma first_filter_none (p : R -> bool) (l : list R) :
  (forall x, In x l -> p x = false) -> Query.first (Query.filter p l) = None.
Proof.
  unfold Query.first, Query.filter.
  induction l as [|a l IH]; simpl; intros Hp; [reflexivity|].
  rewrite (Hp a (or_introl eq_refl)). apply IH. intros x Hx. apply Hp. now right.
Qed.

Lemma first_filter_some (p : R -> bool) (l : list R) (x : R) :
  Query.first (Query.filter p l) = Some x -> In x l /\ p x = true.
Proof.
  unfold Query.first, Query.filter. intros Hx.
  assert (Hin : In x (filter p l)).
  { destruct (filter p l); simpl in Hx; [discriminate|]. injection Hx as ->. now left. }
  now apply filter_In in Hin.
Qed.

Lemma first_filter_found (p : R -> bool) (l : list R) (x : R) :
  In x l -> p x = true -> exists y, Query.first (Query.filter p l) = Some y.
Proof.
  unfold Query.first, Query.filter. intros Hin Hp.
  assert (Hf : In x (filter p l)) by (apply filter_In; now split).
  destruct (filter p l) as [|y q]; [contradiction|]. now exists y.
Qed.

Lemma by_key_absent (k : Z) (l : list R) :
  ~ In k (map pk l) -> Query.first (Query.filter (fun x => pk x =? k) l) = None.
Proof.
  intros Hk. apply first_filter_none. intros x Hx.
  apply Z.eqb_neq. intros <-. apply Hk. now apply in_map.
Qed.

Lemma by_key_appended (l : list R) (r : R) :
  ~ In (pk r) (map pk l) ->
  Query.first (Query.filter (fun x => pk x =? pk r) (l ++ [r])) = Some r.
Proof.
  unfold Query.first, Query.filter. intros Hk.
  rewrite filter_app. simpl. rewrite Z.eqb_refl.
  replace (filter (fun x => pk x =? pk r) l) with (@nil R); [reflexivity|].
  symmetry. induction l as [|a l IH]; simpl in *; [reflexivity|].
  destruct (Z.eqb_spec (pk a) (pk r)) as [E|E]; [exfalso; apply Hk; now left|].
  apply IH. intros Hin. apply Hk. now right.
Qed.

(** The row that an UPDATE rewrites is the one a lookup by key finds. *)
Lemma by_key_updated (l : list R) (old new : R) :
  pk new = pk old ->
  Query.first (Query.filter (fun x => pk x =? pk old) l) = Some old ->
  Query.first (Query.filter (fun x => pk x =? pk old)
                 (map (fun x => if pk x =? pk new then new else x) l)) = Some new.
Proof.
  unfold Query.first, Query.filter. intros E. rewrite E.
  induction l as [|a l IH]; simpl; [discriminate|].
  destruct (Z.eqb_spec (pk a) (pk old)) as [Ea|Ea]; simpl.
  - intros _. rewrite E, Z.eqb_refl. reflexivity.
  - destruct (Z.eqb_spec (pk a) (pk old)); [contradiction|]. exact IH.
Qed.

Lemma keys_updated (l : list R) (r : R) :
  map pk (map (fun x => if pk x =? pk r then r else x) l) = map pk l.
Proof.
  induction l as [|a l IH]; simpl; [reflexivity|]. rewrite IH. f_equal.
  destruct (Z.eqb_spec (pk a) (pk r)); congruence.
Qed.

Lemma sorted_nodup (ks : list Z) : StronglySorted Z.lt ks -> NoDup ks.
Proof.
  induction 1 as [|k ks Hs IH Hk]; constructor; [|exact IH].
  intros Hin. rewrite Forall_forall in Hk. specialize (Hk k Hin). lia.
Qed.

Lemma sorted_filter (p : R -> bool) (l : list R) :
  StronglySorted Z.lt (map pk l) -> StronglySorted Z.lt (map pk (filter p l)).
Proof.
  induction l as [|a l IH]; simpl; intros Hs; [constructor|].
  inversion Hs as [|? ? Hs' Hk]; subst.
  destruct (p a); simpl; [|now apply IH].
  constructor; [now apply IH|].
  rewrite Forall_forall in *. intros k Hin. apply Hk.
  apply in_map_iff in Hin as (x & <- & Hx). apply in_map. now apply filter_In in Hx.
Qed.

Lemma sorted_appended (ks : list Z) (k : Z) :
  StronglySorted Z.lt ks -> Forall (fun x => x < k) ks -> StronglySorted Z.lt (ks ++ [k]).
Proof.
  induction 1 as [|a ks Hs IH Ha]; simpl; intros Hk.
  - repeat constructor.
  - inversion Hk; subst. constructor; [now apply IH|].
    apply Forall_app. split; [exact Ha|]. now repeat constructor.
Qed.

(** Distinct keys: a key names one row. *)
Lemma key_names_row (l : list R) (x y : R) :
  NoDup (map pk l) -> In x l -> In y l -> pk x = pk y -> x = y.
Proof.
  induction l as [|a l IH]; simpl; [contradiction|].
  intros Hnd Hx Hy E. inversion Hnd as [|? ? Hna Hnd']; subst.
  destruct Hx as [->|Hx], Hy as [->|Hy]; try reflexivity.
  - exfalso. apply Hna. rewrite E. now apply in_map.
  - exfalso. apply Hna. rewrite <- E. now apply in_map.
  - now apply IH.
Qed.

Lemma by_key_present (l : list R) (x : R) :
  NoDup (map pk l) -> In x l ->
  Query.first (Query.filter (fun y => pk y =? pk x) l) = Some x.
Proof.
  intros Hnd Hx.
  destruct (first_filter_found (fun y => pk y =? pk x) l x Hx (Z.eqb_refl _)) as [y Hy].
  rewrite Hy. f_equal.
  apply first_filter_some in Hy as [Hin Hk]. apply Z.eqb_eq in Hk.
  now apply (key_names_row l).
Qed.

End Rows.

(** The combinators of the session and of the query interface, unfolded. *)
Ltac session_unfold :=
  unfold response_model, flat, bind, ret, raise, select, execute, commit,
    query_Task, query_Department, query_Role, query_Function,
    Query.all, Query.first, Query.filter in *;
  cbn [pk Task_mapped Department_mapped Role_mapped Function_mapped] in *.

Lemma sample_db_wf : wf sample_db.
Proof.
  unfold wf, table_ok, references_ok, keys; simpl.
  repeat split; repeat constructor; simpl; try lia; tauto.
Qed.

(** ** Reads *)

(** C10: the read operations get, list and list_by_parent never modify the
    stored state: for every entity type and all arguments the store after
    the call is the store before it.  The same holds for the handlers that
    delegate to them, also when they answer 404. *)
Theorem reads_leave_store (db : DB) :
  (forall task_id, final (crud.get_task task_id db) = db)
  /\ (forall skip limit, final (crud.get_tasks skip limit db) = db)
  /\ (forall department_id, final (crud.get_department department_id db) = db)
  /\ (forall skip limit, final (crud.get_departments skip limit db) = db)
  /\ (forall role_id, final (crud.get_role role_id db) = db)
  /\ (forall skip limit, final (crud.get_roles skip limit db) = db)
  /\ (forall department_id skip limit,
        final (crud.get_roles_by_department department_id skip limit db) = db)
  /\ (forall function_id, final (crud.get_function function_id db) = db)
  /\ (forall skip limit, final (crud.get_functions skip limit db) = db)
  /\ (forall role_id skip limit,
        final (crud.get_functions_by_role role_id skip limit db) = db)
  /\ (forall task_id, final (routers.read_task task_id db) = db)
  /\ (forall skip limit, final (routers.read_tasks skip limit db) = db)
  /\ (forall department_id, final (org_routers.read_department department_id db) = db)
  /\ (forall skip limit, final (org_routers.read_departments skip limit db) = db)
  /\ (forall role_id, final (org_routers.read_role role_id db) = db)
  /\ (forall skip limit, final (org_routers.read_roles skip limit db) = db)
  /\ (forall department_id skip limit,
        final (org_routers.read_roles_by_department department_id skip limit db) = db)
  /\ (forall function_id, final (org_routers.read_function function_id db) = db)
  /\ (forall skip limit, final (org_routers.read_functions skip limit db) = db)
  /\ (forall role_id skip limit,
        final (org_routers.read_functions_by_role role_id skip limit db) = db).
Proof.
  repeat split; intros; try reflexivity.
  - unfold routers.read_task, response_model, crud.get_task, bind, select; simpl.
    destruct (Query.first _); reflexivity.
  - unfold org_routers.read_department, response_model, crud.get_department, bind, select;
      simpl.
    destruct (Query.first _); reflexivity.
  - unfold org_routers.read_role, response_model, crud.get_role, bind, select; simpl.
    destruct (Query.first _); reflexivity.
  - unfold org_routers.read_function, response_model, crud.get_function, bind, select; simpl.
    destruct (Query.first _); reflexivity.
Qed.

(** Pagination: for every entity type, list(skip, limit) is the
    unrestricted query, the rows of the table in storage order, with its
    first [skip] elements dropped and then capped at [limit] elements; with
    the defaults that is its first 100 elements. *)
Lemma list_is_window (db : DB) (skip limit : nat) :
  crud.get_tasks (Z.of_nat skip) (Z.of_nat limit) db
    = Return (firstn limit (skipn skip (query_Task db))) db
  /\ crud.get_departments (Z.of_nat skip) (Z.of_nat limit) db
    = Return (firstn limit (skipn skip (query_Department db))) db
  /\ crud.get_roles (Z.of_nat skip) (Z.of_nat limit) db
    = Return (firstn limit (skipn skip (query_Role db))) db
  /\ crud.get_functions (Z.of_nat skip) (Z.of_nat limit) db
    = Return (firstn limit (skipn skip (query_Function db))) db.
Proof.
  unfold crud.get_tasks, crud.get_departments, crud.get_roles, crud.get_functions,
    select, Query.all, Query.limit, Query.offset.
  assert (E : (Z.of_nat limit <? 0) = false) by (apply Z.ltb_ge; lia).
  rewrite E, !Nat2Z.id. repeat split.
Qed.

(** ** Not found *)

(** C2: for every entity type and every id with no matching row,
    update(id, fields) returns not-found and leaves the store as it was (no
    row created, modified or deleted); the handler answers 404. *)
Theorem update_absent_not_found (db : DB) (now id : Z) :
  (forall task, ~ In id (keys (tasks db)) ->
     crud.update_task now id task db = Return None db
     /\ routers.update_task now id task db
        = Raise (HTTPException 404 "Task not found") db)
  /\ (forall department, ~ In id (keys (departments db)) ->
     crud.update_department now id department db = Return None db
     /\ org_routers.update_department now id department db
        = Raise (HTTPException 404 "Department not found") db)
  /\ (forall role, ~ In id (keys (roles db)) ->
     crud.update_role now id role db = Return None db
     /\ org_routers.update_role now id role db
        = Raise (HTTPException 404 "Role not found") db)
  /\ (forall function, ~ In id (keys (functions db)) ->
     crud.update_function now id function db = Return None db
     /\ org_routers.update_function now id function db
        = Raise (HTTPException 404 "Function not found") db).
Proof.
  repeat split; intros.
  all: match goal with Hk : ~ In _ (keys _) |- _ => apply by_key_absent in Hk end.
  all: unfold routers.update_task, org_routers.update_department, org_routers.update_role,
         org_routers.update_function, crud.update_task, crud.update_department,
         crud.update_role, crud.update_function, crud.get_task, crud.get_department,
         crud.get_role, crud.get_function.
  all: session_unfold; now rewrite H.
Qed.

(** ** Tables under the statements *)

Section Tables.
Context {R : Type} `{Mapped R}.

Lemma fresh_key (t : Table R) : table_ok t -> ~ In (next_id t) (keys t).
Proof.
  intros [_ Hb] Hin. rewrite Forall_forall in Hb. specialize (Hb _ Hin). lia.
Qed.

Lemma table_ok_nodup (t : Table R) : table_ok t -> NoDup (keys t).
Proof. intros [Hs _]. now apply sorted_nodup. Qed.

Lemma table_ok_insert (mk : Z -> R) (t : Table R) :
  pk (mk (next_id t)) = next_id t -> table_ok t -> table_ok (snd (insert mk t)).
Proof.
  intros Hk [Hs Hb]. unfold table_ok, keys, insert in *; simpl.
  rewrite map_app; simpl. rewrite Hk. split.
  - now apply sorted_appended.
  - apply Forall_app. split.
    + eapply Forall_impl; [|exact Hb]. simpl; intros; lia.
    + repeat constructor. lia.
Qed.

Lemma table_ok_update (r : R) (t : Table R) : table_ok t -> table_ok (update r t).
Proof.
  unfold table_ok, keys, update; simpl. now rewrite keys_updated.
Qed.

Lemma below_filter (p : R -> bool) (l : list R) (n : Z) :
  Forall (fun k => k < n) (map pk l) -> Forall (fun k => k < n) (map pk (filter p l)).
Proof.
  rewrite !Forall_forall. intros Hb k Hin. apply Hb.
  apply in_map_iff in Hin as (x & <- & Hx). apply in_map. now apply filter_In in Hx.
Qed.

Lemma table_ok_delete (r : R) (t : Table R) : table_ok t -> table_ok (delete r t).
Proof.
  unfold table_ok, keys, delete; simpl. intros [Hs Hb]. split.
  - now apply sorted_filter.
  - now apply below_filter.
Qed.

Lemma delete_all_rows (ds : list R) (t : Table R) :
  rows (delete_all ds t)
  = filter (fun x => negb (existsb (fun d => pk x =? pk d) ds)) (rows t).
Proof.
  unfold delete_all. revert t. induction ds as [|d ds IH]; intros t; simpl.
  - induction (rows t) as [|a l IHl]; simpl; congruence.
  - rewrite IH. simpl. clear IH.
    induction (rows t) as [|a l IHl]; simpl; [reflexivity|].
    destruct (pk a =? pk d); simpl; [exact IHl|].
    destruct (existsb _ ds); simpl; congruence.
Qed.

Lemma delete_all_next_id (ds : list R) (t : Table R) :
  next_id (delete_all ds t) = next_id t.
Proof.
  unfold delete_all. revert t. induction ds as [|d ds IH]; intros t; simpl; [reflexivity|].
  now rewrite IH.
Qed.

Lemma table_ok_delete_all (ds : list R) (t : Table R) :
  table_ok t -> table_ok (delete_all ds t).
Proof.
  unfold table_ok, keys. rewrite delete_all_rows, delete_all_next_id. intros [Hs Hb]. split.
  - now apply sorted_filter.
  - now apply below_filter.
Qed.

(** A row survives the deletes when its key is the key of none of them. *)
Lemma delete_all_in (ds : list R) (t : Table R) (x : R) :
  In x (rows (delete_all ds t))
  <-> In x (rows t) /\ ~ In (pk x) (map pk ds).
Proof.
  rewrite delete_all_rows, filter_In, negb_true_iff. split; intros [Hx Hd]; split; auto.
  - intros Hin. apply in_map_iff in Hin as (d & E & Hd').
    assert (Ht : existsb (fun d => pk x =? pk d) ds = true).
    { apply existsb_exists. exists d. split; [exact Hd'|]. apply Z.eqb_eq. congruence. }
    congruence.
  - destruct (existsb _ ds) eqn:E; [|reflexivity]. exfalso. apply Hd.
    apply existsb_exists in E as (d & Hd' & E). apply Z.eqb_eq in E. rewrite E.
    now apply in_map.
Qed.

Lemma delete_in (r : R) (t : Table R) (x : R) :
  In x (rows (delete r t)) <-> In x (rows t) /\ pk x <> pk r.
Proof.
  unfold delete; simpl. rewrite filter_In, negb_true_iff, Z.eqb_neq. tauto.
Qed.

End Tables.

(** ** What each repository function does *)

Lemma create_task_returns (db : DB) (now : Z) (task : TaskCreate.t) :
  ~ In (next_id (tasks db)) (keys (tasks db)) ->
  crud.create_task now task db
  = Return (Task_new now task (next_id (tasks db)))
      (set_tasks (snd (insert (Task_new now task) (tasks db))) db).
Proof.
  intros Hk.
  pose proof (by_key_appended (rows (tasks db)) (Task_new now task (next_id (tasks db))) Hk) as E.
  unfold crud.create_task, add_Task, refresh_Task, insert. session_unfold. simpl in *.
  now rewrite E.
Qed.

Lemma update_task_returns (db : DB) (now task_id : Z) (task : TaskCreate.t) (old : Task.t) :
  crud.get_task task_id db = Return (Some old) db ->
  crud.update_task now task_id task db
  = if Task_clean old (Task_setattrs task old) then Return (Some old) db
    else Return (Some (Task_onupdate now (Task_setattrs task old)))
           (set_tasks (update (Task_onupdate now (Task_setattrs task old)) (tasks db)) db).
Proof.
  unfold crud.get_task, select. intros Hg. injection Hg as Hg.
  pose proof (first_filter_some _ _ _ Hg) as [_ Hid]. apply Z.eqb_eq in Hid. subst task_id.
  pose proof (by_key_updated (rows (tasks db)) old
                (Task_onupdate now (Task_setattrs task old)) eq_refl Hg) as Hu.
  unfold crud.update_task, crud.get_task, flush_Task, refresh_Task, update.
  session_unfold. simpl in *. rewrite Hg.
  destruct (Task_clean old (Task_setattrs task old)); simpl.
  - now rewrite Hg.
  - now rewrite Hu.
Qed.

Lemma delete_task_returns (db : DB) (task_id : Z) (old : Task.t) :
  crud.get_task task_id db = Return (Some old) db ->
  crud.delete_task task_id db = Return (Some old) (set_tasks (delete old (tasks db)) db).
Proof.
  unfold crud.get_task, select. intros Hg. injection Hg as Hg.
  unfold crud.delete_task, crud.get_task, delete_Task, DELETE_Task.
  session_unfold. now rewrite Hg.
Qed.

Lemma create_department_returns (db : DB) (now : Z) (department : DepartmentCreate.t) :
  ~ In (next_id (departments db)) (keys (departments db)) ->
  crud.create_department now department db
  = Return (Department_new now department (next_id (departments db)))
      (set_departments (snd (insert (Department_new now department) (departments db))) db).
Proof.
  intros Hk.
  pose proof (by_key_appended (rows (departments db))
                (Department_new now department (next_id (departments db))) Hk) as E.
  unfold crud.create_department, add_Department, refresh_Department, insert.
  session_unfold. simpl in *. now rewrite E.
Qed.

Lemma update_department_returns (db : DB) (now department_id : Z)
    (department : DepartmentCreate.t) (old : Department.t) :
  crud.get_department department_id db = Return (Some old) db ->
  crud.update_department now department_id department db
  = if Department_clean old (Department_setattrs department old) then Return (Some old) db
    else Return (Some (Department_onupdate now (Department_setattrs department old)))
           (set_departments
              (update (Department_onupdate now (Department_setattrs department old))
                 (departments db)) db).
Proof.
  unfold crud.get_department, select. intros Hg. injection Hg as Hg.
  pose proof (first_filter_some _ _ _ Hg) as [_ Hid]. apply Z.eqb_eq in Hid.
  subst department_id.
  pose proof (by_key_updated (rows (departments db)) old
                (Department_onupdate now (Department_setattrs department old))
                eq_refl Hg) as Hu.
  unfold crud.update_department, crud.get_department, flush_Department,
    refresh_Department, update.
  session_unfold. simpl in *. rewrite Hg.
  destruct (Department_clean old (Department_setattrs department old)); simpl.
  - now rewrite Hg.
  - now rewrite Hu.
Qed.

Lemma create_role_returns (db : DB) (now : Z) (role : RoleCreate.t) :
  ~ In (next_id (roles db)) (keys (roles db)) ->
  crud.create_role now role db
  = if department_exists (RoleCreate.department_id role) db
    then Return (Role_new now role (next_id (roles db)))
           (set_roles (snd (insert (Role_new now role) (roles db))) db)
    else Raise IntegrityError db.
Proof.
  intros Hk.
  pose proof (by_key_appended (rows (roles db))
                (Role_new now role (next_id (roles db))) Hk) as E.
  unfold crud.create_role, add_Role, refresh_Role, insert.
  session_unfold. simpl in *.
  destruct (department_exists _ db); [|reflexivity]. simpl. now rewrite E.
Qed.

Lemma update_role_returns (db : DB) (now role_id : Z) (role : RoleCreate.t) (old : Role.t) :
  crud.get_role role_id db = Return (Some old) db ->
  crud.update_role now role_id role db
  = if Role_clean old (Role_setattrs role old) then Return (Some old) db
    else if (Role.department_id old =? RoleCreate.department_id role)
            || department_exists (RoleCreate.department_id role) db
    then Return (Some (Role_onupdate now (Role_setattrs role old)))
           (set_roles (update (Role_onupdate now (Role_setattrs role old)) (roles db)) db)
    else Raise IntegrityError db.
Proof.
  unfold crud.get_role, select. intros Hg. injection Hg as Hg.
  pose proof (first_filter_some _ _ _ Hg) as [_ Hid]. apply Z.eqb_eq in Hid. subst role_id.
  pose proof (by_key_updated (rows (roles db)) old
                (Role_onupdate now (Role_setattrs role old)) eq_refl Hg) as Hu.
  unfold crud.update_role, crud.get_role, flush_Role, refresh_Role, update.
  session_unfold. simpl in *. rewrite Hg.
  destruct (Role_clean old (Role_setattrs role old)); simpl.
  - now rewrite Hg.
  - destruct (_ || _); [|reflexivity]. simpl. now rewrite Hu.
Qed.

Lemma create_function_returns (db : DB) (now : Z) (function : FunctionCreate.t) :
  ~ In (next_id (functions db)) (keys (functions db)) ->
  crud.create_function now function db
  = if role_exists (FunctionCreate.role_id function) db
    then Return (Function_new now function (next_id (functions db)))
           (set_functions (snd (insert (Function_new now function) (functions db))) db)
    else Raise IntegrityError db.
Proof.
  intros Hk.
  pose proof (by_key_appended (rows (functions db))
                (Function_new now function (next_id (functions db))) Hk) as E.
  unfold crud.create_function, add_Function, refresh_Function, insert.
  session_unfold. simpl in *.
  destruct (role_exists _ db); [|reflexivity]. simpl. now rewrite E.
Qed.

Lemma update_function_returns (db : DB) (now function_id : Z)
    (function : FunctionCreate.t) (old : Function.t) :
  crud.get_function function_id db = Return (Some old) db ->
  crud.update_function now function_id function db
  = if Function_clean old (Function_setattrs function old) then Return (Some old) db
    else if (Function.role_id old =? FunctionCreate.role_id function)
            || role_exists (FunctionCreate.role_id function) db
    then Return (Some (Function_onupdate now (Function_setattrs function old)))
           (set_functions
              (update (Function_onupdate now (Function_setattrs function old))
                 (functions db)) db)
    else Raise IntegrityError db.
Proof.
  unfold crud.get_function, select. intros Hg. injection Hg as Hg.
  pose proof (first_filter_some _ _ _ Hg) as [_ Hid]. apply Z.eqb_eq in Hid.
  subst function_id.
  pose proof (by_key_updated (rows (functions db)) old
                (Function_onupdate now (Function_setattrs function old)) eq_refl Hg) as Hu.
  unfold crud.update_function, crud.get_function, flush_Function, refresh_Function, update.
  session_unfold. simpl in *. rewrite Hg.
  destruct (Function_clean old (Function_setattrs function old)); simpl.
  - now rewrite Hg.
  - destruct (_ || _); [|reflexivity]. simpl. now rewrite Hu.
Qed.

Lemma delete_function_returns (db : DB) (function_id : Z) (old : Function.t) :
  crud.get_function function_id db = Return (Some old) db ->
  crud.delete_function function_id db
  = Return (Some old) (set_functions (delete old (functions db)) db).
Proof.
  unfold crud.get_function, select. intros Hg. injection Hg as Hg.
  unfold crud.delete_function, crud.get_function, delete_Function, DELETE_Function.
  session_unfold. now rewrite Hg.
Qed.

(** *** The cascade *)

Lemma for_each_DELETE_Function (fs : list Function.t) (db : DB) :
  for_each DELETE_Function fs db
  = Return tt (set_functions (delete_all fs (functions db)) db).
Proof.
  revert db. induction fs as [|f fs IH]; intros db; simpl.
  - now destruct db.
  - unfold bind at 1. unfold DELETE_Function at 1, execute. now rewrite IH.
Qed.

Lemma for_each_DELETE_Role (rs : list Role.t) (db : DB) :
  (forall r, In r rs -> role_referenced (Role.id r) db = false) ->
  for_each DELETE_Role rs db = Return tt (set_roles (delete_all rs (roles db)) db).
Proof.
  revert db. induction rs as [|r rs IH]; intros db Hrs; simpl.
  - now destruct db.
  - unfold bind at 1. unfold DELETE_Role at 1.
    rewrite (Hrs r (or_introl eq_refl)). rewrite IH; [reflexivity|].
    intros r' Hr'. apply (Hrs r'). now right.
Qed.

(** Once the functions of a role are deleted, nothing refers to the role. *)
Lemma functions_deleted_unreferenced (fs : list Function.t) (r : Role.t) (db : DB) :
  incl (Role_functions r db) fs ->
  role_referenced (Role.id r) (set_functions (delete_all fs (functions db)) db) = false.
Proof.
  intros Hfs. unfold role_referenced, query_Function; simpl.
  destruct (existsb _ _) eqn:E; [|reflexivity]. exfalso.
  apply existsb_exists in E as (f & Hf & Hr).
  apply delete_all_in in Hf as [Hf Hno]. apply Hno. apply in_map.
  apply Hfs. unfold Role_functions, Query.all, Query.filter, query_Function.
  apply filter_In. now split.
Qed.

Lemma roles_deleted_unreferenced (rs : list Role.t) (d : Department.t) (db : DB) :
  incl (Department_roles d db) rs ->
  department_referenced (Department.id d) (set_roles (delete_all rs (roles db)) db) = false.
Proof.
  intros Hrs. unfold department_referenced, query_Role; simpl.
  destruct (existsb _ _) eqn:E; [|reflexivity]. exfalso.
  apply existsb_exists in E as (r & Hr & Hd).
  apply delete_all_in in Hr as [Hr Hno]. apply Hno. apply in_map.
  apply Hrs. unfold Department_roles, Query.all, Query.filter, query_Role.
  apply filter_In. now split.
Qed.

Lemma delete_role_returns (db : DB) (role_id : Z) (old : Role.t) :
  crud.get_role role_id db = Return (Some old) db ->
  crud.delete_role role_id db
  = Return (Some old)
      (mkDB (tasks db) (departments db) (delete old (roles db))
         (delete_all (Role_functions old db) (functions db))).
Proof.
  unfold crud.get_role, select. intros Hg. injection Hg as Hg.
  unfold crud.delete_role, crud.get_role, delete_Role.
  unfold bind, select, commit, ret. rewrite Hg.
  rewrite for_each_DELETE_Function. unfold DELETE_Role.
  rewrite functions_deleted_unreferenced by apply incl_refl.
  reflexivity.
Qed.

Lemma delete_department_returns (db : DB) (department_id : Z) (old : Department.t) :
  crud.get_department department_id db = Return (Some old) db ->
  crud.delete_department department_id db
  = Return (Some old)
      (mkDB (tasks db) (delete old (departments db))
         (delete_all (Department_roles old db) (roles db))
         (delete_all (flat_map (fun r => Role_functions r db) (Department_roles old db))
            (functions db))).
Proof.
  unfold crud.get_department, select. intros Hg. injection Hg as Hg.
  unfold crud.delete_department, crud.get_department, delete_Department.
  unfold bind, select, commit, ret. rewrite Hg.
  rewrite for_each_DELETE_Function.
  rewrite for_each_DELETE_Role.
  - unfold DELETE_Department.
    rewrite (roles_deleted_unreferenced (Department_roles old db) old
               (set_functions _ db)) by apply incl_refl.
    reflexivity.
  - intros r Hr. apply functions_deleted_unreferenced.
    intros f Hf. apply in_flat_map. now exists r.
Qed.

(** *** Lookups *)

Lemma get_task_cases (db : DB) (task_id : Z) :
  (exists old, crud.get_task task_id db = Return (Some old) db
               /\ In old (rows (tasks db)) /\ Task.id old = task_id)
  \/ (crud.get_task task_id db = Return None db /\ ~ In task_id (keys (tasks db))).
Proof.
  unfold crud.get_task, select, query_Task.
  destruct (Query.first _) as [old|] eqn:E.
  - left. exists old. apply first_filter_some in E as [Hin Hk].
    apply Z.eqb_eq in Hk. auto.
  - right. split; [reflexivity|]. intros Hin.
    apply in_map_iff in Hin as (x & Hk & Hx).
    destruct (first_filter_found (fun t => Task.id t =? task_id) _ x Hx) as [y Hy].
    + now apply Z.eqb_eq.
    + congruence.
Qed.

Lemma get_department_cases (db : DB) (department_id : Z) :
  (exists old, crud.get_department department_id db = Return (Some old) db
               /\ In old (rows (departments db)) /\ Department.id old = department_id)
  \/ (crud.get_department department_id db = Return None db
      /\ ~ In department_id (keys (departments db))).
Proof.
  unfold crud.get_department, select, query_Department.
  destruct (Query.first _) as [old|] eqn:E.
  - left. exists old. apply first_filter_some in E as [Hin Hk].
    apply Z.eqb_eq in Hk. auto.
  - right. split; [reflexivity|]. intros Hin.
    apply in_map_iff in Hin as (x & Hk & Hx).
    destruct (first_filter_found (fun d => Department.id d =? department_id) _ x Hx)
      as [y Hy].
    + now apply Z.eqb_eq.
    + congruence.
Qed.

Lemma get_role_cases (db : DB) (role_id : Z) :
  (exists old, crud.get_role role_id db = Return (Some old) db
               /\ In old (rows (roles db)) /\ Role.id old = role_id)
  \/ (crud.get_role role_id db = Return None db /\ ~ In role_id (keys (roles db))).
Proof.
  unfold crud.get_role, select, query_Role.
  destruct (Query.first _) as [old|] eqn:E.
  - left. exists old. apply first_filter_some in E as [Hin Hk].
    apply Z.eqb_eq in Hk. auto.
  - right. split; [reflexivity|]. intros Hin.
    apply in_map_iff in Hin as (x & Hk & Hx).
    destruct (first_filter_found (fun r => Role.id r =? role_id) _ x Hx) as [y Hy].
    + now apply Z.eqb_eq.
    + congruence.
Qed.

Lemma get_function_cases (db : DB) (function_id : Z) :
  (exists old, crud.get_function function_id db = Return (Some old) db
               /\ In old (rows (functions db)) /\ Function.id old = function_id)
  \/ (crud.get_function function_id db = Return None db
      /\ ~ In function_id (keys (functions db))).
Proof.
  unfold crud.get_function, select, query_Function.
  destruct (Query.first _) as [old|] eqn:E.
  - left. exists old. apply first_filter_some in E as [Hin Hk].
    apply Z.eqb_eq in Hk. auto.
  - right. split; [reflexivity|]. intros Hin.
    apply in_map_iff in Hin as (x & Hk & Hx).
    destruct (first_filter_found (fun f => Function.id f =? function_id) _ x Hx)
      as [y Hy].
    + now apply Z.eqb_eq.
    + congruence.
Qed.

(** Without a matching row, update and delete return not-found and touch
    nothing. *)
Lemma absent_task (db : DB) (task_id : Z) :
  crud.get_task task_id db = Return None db ->
  (forall now task, crud.update_task now task_id task db = Return None db)
  /\ crud.delete_task task_id db = Return None db.
Proof.
  intros Hg. unfold crud.update_task, crud.delete_task, bind. now rewrite Hg.
Qed.

Lemma absent_department (db : DB) (department_id : Z) :
  crud.get_department department_id db = Return None db ->
  (forall now department,
      crud.update_department now department_id department db = Return None db)
  /\ crud.delete_department department_id db = Return None db.
Proof.
  intros Hg. unfold crud.update_department, crud.delete_department, bind. now rewrite Hg.
Qed.

Lemma absent_role (db : DB) (role_id : Z) :
  crud.get_role role_id db = Return None db ->
  (forall now role, crud.update_role now role_id role db = Return None db)
  /\ crud.delete_role role_id db = Return None db.
Proof.
  intros Hg. unfold crud.update_role, crud.delete_role, bind. now rewrite Hg.
Qed.

Lemma absent_function (db : DB) (function_id : Z) :
  crud.get_function function_id db = Return None db ->
  (forall now function, crud.update_function now function_id function db = Return None db)
  /\ crud.delete_function function_id db = Return None db.
Proof.
  intros Hg. unfold crud.update_function, crud.delete_function, bind. now rewrite Hg.
Qed.

Lemma exists_key_iff {R : Type} `{Mapped R} (k : Z) (l : list R) :
  existsb (fun x => pk x =? k) l = true <-> In k (map pk l).
Proof.
  rewrite existsb_exists, in_map_iff. split; intros (x & A & B).
  - exists x. split; [now apply Z.eqb_eq|exact A].
  - exists x. split; [exact B|now apply Z.eqb_eq].
Qed.

(** ** Well-formed stores stay well-formed *)

Lemma keys_insert {R : Type} `{Mapped R} (mk : Z -> R) (t : Table R) :
  keys (snd (insert mk t)) = (keys t ++ [pk (mk (next_id t))])%list.
Proof. unfold keys, insert; simpl. now rewrite map_app. Qed.

Lemma keys_update {R : Type} `{Mapped R} (r : R) (t : Table R) :
  keys (update r t) = keys t.
Proof. unfold keys, update; simpl. apply keys_updated. Qed.

Lemma Forall_updated {R : Type} `{Mapped R} (P : R -> Prop) (r : R) (l : list R) :
  P r -> Forall P l -> Forall P (map (fun x => if pk x =? pk r then r else x) l).
Proof.
  intros Hr Hl. induction Hl as [|a l Ha Hl IH]; simpl; constructor; [|exact IH].
  now destruct (pk a =? pk r).
Qed.

Ltac wf_split :=
  unfold wf, references_ok, set_tasks, set_departments, set_roles, set_functions;
  cbn [tasks departments roles functions]; split; [|split; [|split; [|split; [|split]]]].

Lemma wf_set_tasks (t : Table Task.t) (db : DB) :
  wf db -> table_ok t -> wf (set_tasks t db).
Proof. unfold wf, references_ok; simpl. tauto. Qed.

Lemma wf_set_departments (t : Table Department.t) (db : DB) :
  wf db -> table_ok t -> incl (keys (departments db)) (keys t) ->
  wf (set_departments t db).
Proof.
  intros (Ht & Hd & Hr & Hf & Hrd & Hfr) Hok Hincl.
  wf_split; try assumption.
  eapply Forall_impl; [|exact Hrd]. simpl. intros r Hin. now apply Hincl.
Qed.

Lemma wf_set_roles (t : Table Role.t) (db : DB) :
  wf db -> table_ok t -> incl (keys (roles db)) (keys t) ->
  Forall (fun r => In (Role.department_id r) (keys (departments db))) (rows t) ->
  wf (set_roles t db).
Proof.
  intros (Ht & Hd & Hr & Hf & Hrd & Hfr) Hok Hincl Hnew.
  wf_split; try assumption.
  eapply Forall_impl; [|exact Hfr]. simpl. intros f Hin. now apply Hincl.
Qed.

Lemma wf_set_functions (t : Table Function.t) (db : DB) :
  wf db -> table_ok t ->
  Forall (fun f => In (Function.role_id f) (keys (roles db))) (rows t) ->
  wf (set_functions t db).
Proof. unfold wf, references_ok; simpl. tauto. Qed.

Lemma wf_delete_function (old : Function.t) (db : DB) :
  wf db -> wf (set_functions (delete old (functions db)) db).
Proof.
  intros Hwf. apply wf_set_functions; [exact Hwf| |].
  - apply table_ok_delete. apply Hwf.
  - destruct Hwf as (_ & _ & _ & _ & _ & Hfr). rewrite Forall_forall in *.
    intros f Hf. apply Hfr. now apply delete_in in Hf.
Qed.

Lemma wf_delete_role (old : Role.t) (db : DB) :
  wf db ->
  wf (mkDB (tasks db) (departments db) (delete old (roles db))
        (delete_all (Role_functions old db) (functions db))).
Proof.
  intros (Ht & Hd & Hr & Hf & Hrd & Hfr).
  wf_split; try assumption.
  - now apply table_ok_delete.
  - now apply table_ok_delete_all.
  - rewrite Forall_forall in *. intros r Hin. apply Hrd. now apply delete_in in Hin.
  - rewrite Forall_forall in *. intros f Hin.
    apply delete_all_in in Hin as [Hin Hno].
    specialize (Hfr f Hin). unfold keys in *.
    apply in_map_iff in Hfr as (r & Hk & Hr').
    apply in_map_iff. exists r. split; [exact Hk|].
    apply delete_in. split; [exact Hr'|].
    intros E. apply Hno. apply in_map.
    unfold Role_functions, Query.all, Query.filter, query_Function.
    apply filter_In. split; [exact Hin|]. apply Z.eqb_eq.
    cbn [pk Role_mapped] in *. congruence.
Qed.

Lemma wf_delete_department (old : Department.t) (db : DB) :
  wf db ->
  wf (mkDB (tasks db) (delete old (departments db))
        (delete_all (Department_roles old db) (roles db))
        (delete_all (flat_map (fun r => Role_functions r db) (Department_roles old db))
           (functions db))).
Proof.
  intros (Ht & Hd & Hr & Hf & Hrd & Hfr).
  wf_split; try assumption.
  - now apply table_ok_delete.
  - now apply table_ok_delete_all.
  - now apply table_ok_delete_all.
  - rewrite Forall_forall in *. intros r Hin.
    apply delete_all_in in Hin as [Hin Hno].
    specialize (Hrd r Hin). unfold keys in *.
    apply in_map_iff in Hrd as (d & Hk & Hd').
    apply in_map_iff. exists d. split; [exact Hk|].
    apply delete_in. split; [exact Hd'|].
    intros E. apply Hno. apply in_map.
    unfold Department_roles, Query.all, Query.filter, query_Role.
    apply filter_In. split; [exact Hin|]. apply Z.eqb_eq.
    cbn [pk Department_mapped] in *. congruence.
  - rewrite Forall_forall in *. intros f Hin.
    apply delete_all_in in Hin as [Hin Hno].
    specialize (Hfr f Hin). unfold keys in *.
    apply in_map_iff in Hfr as (r & Hk & Hr').
    apply in_map_iff. exists r. split; [exact Hk|].
    apply delete_all_in. split; [exact Hr'|].
    intros Hdel. apply Hno.
    apply in_map_iff in Hdel as (r' & Hk' & Hr'').
    apply in_map. apply in_flat_map. exists r'. split; [exact Hr''|].
    unfold Role_functions, Query.all, Query.filter, query_Function.
    apply filter_In. split; [exact Hin|]. apply Z.eqb_eq.
    cbn [pk Role_mapped] in *. congruence.
Qed.

Lemma department_exists_iff (k : Z) (db : DB) :
  department_exists k db = true <-> In k (keys (departments db)).
Proof.
  unfold department_exists, query_Department, keys.
  exact (exists_key_iff (R := Department.t) k (rows (departments db))).
Qed.

Lemma role_exists_iff (k : Z) (db : DB) :
  role_exists k db = true <-> In k (keys (roles db)).
Proof.
  unfold role_exists, query_Role, keys.
  exact (exists_key_iff (R := Role.t) k (rows (roles db))).
Qed.

Lemma run_wf (op : Op) (db : DB) : wf db -> wf (run op db).
Proof.
  intros Hwf. pose proof Hwf as (Ht & Hd & Hr & Hf & Hrd & Hfr).
  destruct op; simpl.
  - rewrite create_task_returns by now apply fresh_key.
    apply wf_set_tasks; [exact Hwf|]. now apply table_ok_insert.
  - destruct (get_task_cases db task_id) as [(old & Hg & _)|[Hg _]].
    + rewrite (update_task_returns _ _ _ _ _ Hg).
      destruct (Task_clean _ _); [exact Hwf|].
      apply wf_set_tasks; [exact Hwf|]. now apply table_ok_update.
    + now rewrite (proj1 (absent_task _ _ Hg)).
  - destruct (get_task_cases db task_id) as [(old & Hg & _)|[Hg _]].
    + rewrite (delete_task_returns _ _ _ Hg).
      apply wf_set_tasks; [exact Hwf|]. now apply table_ok_delete.
    + now rewrite (proj2 (absent_task _ _ Hg)).
  - rewrite create_department_returns by now apply fresh_key.
    apply wf_set_departments; [exact Hwf|now apply table_ok_insert|].
    rewrite keys_insert. apply incl_appl, incl_refl.
  - destruct (get_department_cases db department_id) as [(old & Hg & _)|[Hg _]].
    + rewrite (update_department_returns _ _ _ _ _ Hg).
      destruct (Department_clean _ _); [exact Hwf|].
      apply wf_set_departments; [exact Hwf|now apply table_ok_update|].
      rewrite keys_update. apply incl_refl.
    + now rewrite (proj1 (absent_department _ _ Hg)).
  - destruct (get_department_cases db department_id) as [(old & Hg & _)|[Hg _]].
    + rewrite (delete_department_returns _ _ _ Hg). now apply wf_delete_department.
    + now rewrite (proj2 (absent_department _ _ Hg)).
  - rewrite create_role_returns by now apply fresh_key.
    destruct (department_exists _ db) eqn:E; [|exact Hwf].
    apply department_exists_iff in E.
    apply wf_set_roles; [exact Hwf|now apply table_ok_insert| |].
    + rewrite keys_insert. apply incl_appl, incl_refl.
    + unfold insert; simpl. apply Forall_app. split; [exact Hrd|]. now repeat constructor.
  - destruct (get_role_cases db role_id) as [(old & Hg & Hin & _)|[Hg _]].
    + rewrite (update_role_returns _ _ _ _ _ Hg).
      destruct (Role_clean _ _); [exact Hwf|].
      destruct (_ || _) eqn:E; [|exact Hwf].
      apply wf_set_roles; [exact Hwf|now apply table_ok_update| |].
      * rewrite keys_update. apply incl_refl.
      * unfold update; cbn [rows]. apply Forall_updated; [|exact Hrd]. simpl.
        apply orb_true_iff in E as [E|E].
        -- apply Z.eqb_eq in E. rewrite <- E.
           rewrite Forall_forall in Hrd. now apply Hrd.
        -- now apply department_exists_iff.
    + now rewrite (proj1 (absent_role _ _ Hg)).
  - destruct (get_role_cases db role_id) as [(old & Hg & _)|[Hg _]].
    + rewrite (delete_role_returns _ _ _ Hg). now apply wf_delete_role.
    + now rewrite (proj2 (absent_role _ _ Hg)).
  - rewrite create_function_returns by now apply fresh_key.
    destruct (role_exists _ db) eqn:E; [|exact Hwf].
    apply role_exists_iff in E.
    apply wf_set_functions; [exact Hwf|now apply table_ok_insert|].
    unfold insert; simpl. apply Forall_app. split; [exact Hfr|]. now repeat constructor.
  - destruct (get_function_cases db function_id) as [(old & Hg & Hin & _)|[Hg _]].
    + rewrite (update_function_returns _ _ _ _ _ Hg).
      destruct (Function_clean _ _); [exact Hwf|].
      destruct (_ || _) eqn:E; [|exact Hwf].
      apply wf_set_functions; [exact Hwf|now apply table_ok_update|].
      unfold update; cbn [rows]. apply Forall_updated; [|exact Hfr]. simpl.
      apply orb_true_iff in E as [E|E].
      * apply Z.eqb_eq in E. rewrite <- E.
        rewrite Forall_forall in Hfr. now apply Hfr.
      * now apply role_exists_iff.
    + now rewrite (proj1 (absent_function _ _ Hg)).
  - destruct (get_function_cases db function_id) as [(old & Hg & _)|[Hg _]].
    + rewrite (delete_function_returns _ _ _ Hg). now apply wf_delete_function.
    + now rewrite (proj2 (absent_function _ _ Hg)).
Qed.

Lemma wf_empty_db : wf empty_db.
Proof.
  unfold wf, table_ok, references_ok, keys; simpl. repeat split; constructor.
Qed.

(** ** Key columns *)

Section Keys.
Context {R : Type} `{Mapped R}.

Lemma keys_evolve_refl (ks : list Z) : keys_evolve ks ks.
Proof.
  exists (fun _ => true), []. split; [|constructor].
  rewrite app_nil_r. induction ks as [|k ks IH]; simpl; congruence.
Qed.

Lemma keys_of_filter (q : Z -> bool) (l : list R) :
  map pk (filter (fun x => q (pk x)) l) = filter q (map pk l).
Proof.
  induction l as [|a l IH]; simpl; [reflexivity|].
  destruct (q (pk a)); simpl; congruence.
Qed.

Lemma keys_evolve_insert (mk : Z -> R) (t : Table R) :
  table_ok t -> pk (mk (next_id t)) = next_id t ->
  keys_evolve (keys t) (keys (snd (insert mk t))).
Proof.
  intros Hok Hk. rewrite keys_insert, Hk.
  exists (fun _ => true), [next_id t]. split.
  - f_equal. induction (keys t) as [|k ks IH]; simpl; congruence.
  - constructor; [|constructor]. now apply fresh_key.
Qed.

Lemma keys_evolve_update (r : R) (t : Table R) :
  keys_evolve (keys t) (keys (update r t)).
Proof. rewrite keys_update. apply keys_evolve_refl. Qed.

Lemma keys_evolve_delete (r : R) (t : Table R) :
  keys_evolve (keys t) (keys (delete r t)).
Proof.
  exists (fun k => negb (k =? pk r)), []. split; [|constructor].
  rewrite app_nil_r. unfold keys, delete; simpl.
  apply (keys_of_filter (fun k => negb (k =? pk r))).
Qed.

Lemma keys_evolve_delete_all (ds : list R) (t : Table R) :
  keys_evolve (keys t) (keys (delete_all ds t)).
Proof.
  exists (fun k => negb (existsb (fun d => k =? pk d) ds)), []. split; [|constructor].
  rewrite app_nil_r. unfold keys. rewrite delete_all_rows.
  apply (keys_of_filter (fun k => negb (existsb (fun d => k =? pk d) ds))).
Qed.

End Keys.

Ltac keys_evolve_step :=
  cbn [final set_tasks set_departments set_roles set_functions
       tasks departments roles functions];
  first [ apply keys_evolve_refl
        | apply keys_evolve_update
        | apply keys_evolve_delete
        | apply keys_evolve_delete_all
        | apply keys_evolve_insert; [assumption | reflexivity] ].

Lemma run_evolves (op : Op) (db : DB) :
  wf db ->
  keys_evolve (keys (tasks db)) (keys (tasks (run op db)))
  /\ keys_evolve (keys (departments db)) (keys (departments (run op db)))
  /\ keys_evolve (keys (roles db)) (keys (roles (run op db)))
  /\ keys_evolve (keys (functions db)) (keys (functions (run op db))).
Proof.
  intros (Ht & Hd & Hr & Hf & _).
  destruct op; simpl run.
  - rewrite create_task_returns by now apply fresh_key.
    repeat split; keys_evolve_step.
  - destruct (get_task_cases db task_id) as [(old & Hg & _)|[Hg _]].
    + rewrite (update_task_returns _ _ _ _ _ Hg).
      destruct (Task_clean _ _); repeat split; keys_evolve_step.
    + rewrite (proj1 (absent_task _ _ Hg)). repeat split; keys_evolve_step.
  - destruct (get_task_cases db task_id) as [(old & Hg & _)|[Hg _]].
    + rewrite (delete_task_returns _ _ _ Hg). repeat split; keys_evolve_step.
    + rewrite (proj2 (absent_task _ _ Hg)). repeat split; keys_evolve_step.
  - rewrite create_department_returns by now apply fresh_key.
    repeat split; keys_evolve_step.
  - destruct (get_department_cases db department_id) as [(old & Hg & _)|[Hg _]].
    + rewrite (update_department_returns _ _ _ _ _ Hg).
      destruct (Department_clean _ _); repeat split; keys_evolve_step.
    + rewrite (proj1 (absent_department _ _ Hg)). repeat split; keys_evolve_step.
  - destruct (get_department_cases db department_id) as [(old & Hg & _)|[Hg _]].
    + rewrite (delete_department_returns _ _ _ Hg). repeat split; keys_evolve_step.
    + rewrite (proj2 (absent_department _ _ Hg)). repeat split; keys_evolve_step.
  - rewrite create_role_returns by now apply fresh_key.
    destruct (department_exists _ db); repeat split; keys_evolve_step.
  - destruct (get_role_cases db role_id) as [(old & Hg & _)|[Hg _]].
    + rewrite (update_role_returns _ _ _ _ _ Hg).
      destruct (Role_clean _ _); [|destruct (_ || _)]; repeat split; keys_evolve_step.
    + rewrite (proj1 (absent_role _ _ Hg)). repeat split; keys_evolve_step.
  - destruct (get_role_cases db role_id) as [(old & Hg & _)|[Hg _]].
    + rewrite (delete_role_returns _ _ _ Hg). repeat split; keys_evolve_step.
    + rewrite (proj2 (absent_role _ _ Hg)). repeat split; keys_evolve_step.
  - rewrite create_function_returns by now apply fresh_key.
    destruct (role_exists _ db); repeat split; keys_evolve_step.
  - destruct (get_function_cases db function_id) as [(old & Hg & _)|[Hg _]].
    + rewrite (update_function_returns _ _ _ _ _ Hg).
      destruct (Function_clean _ _); [|destruct (_ || _)]; repeat split; keys_evolve_step.
    + rewrite (proj1 (absent_function _ _ Hg)). repeat split; keys_evolve_step.
  - destruct (get_function_cases db function_id) as [(old & Hg & _)|[Hg _]].
    + rewrite (delete_function_returns _ _ _ Hg). repeat split; keys_evolve_step.
    + rewrite (proj2 (absent_function _ _ Hg)). repeat split; keys_evolve_step.
Qed.

(** ** Counting rows *)

Section Counting.
Context {R : Type} `{Mapped R}.

Lemma filter_split_length (p : R -> bool) (l : list R) :
  (List.length (filter (fun x => negb (p x)) l) + List.length (filter p l))%nat
  = List.length l.
Proof.
  induction l as [|a l IH]; simpl; [reflexivity|].
  destruct (p a); simpl; lia.
Qed.

Lemma filter_or_length (a b : R -> bool) (l : list R) :
  (forall x, In x l -> a x = true -> b x = false) ->
  List.length (filter (fun x => a x || b x) l)
  = (List.length (filter a l) + List.length (filter b l))%nat.
Proof.
  induction l as [|x l IH]; simpl; intros Hd; [reflexivity|].
  assert (IH' := IH (fun y Hy => Hd y (or_intror Hy))).
  destruct (a x) eqn:Ea; simpl.
  - rewrite (Hd x (or_introl eq_refl) Ea). simpl. lia.
  - destruct (b x); simpl; lia.
Qed.

(** Among rows with distinct keys, deleting the rows picked by [p] leaves
    the rows that [p] does not pick. *)
Lemma delete_all_picked (p : R -> bool) (t : Table R) :
  NoDup (keys t) ->
  rows (delete_all (filter p (rows t)) t) = filter (fun x => negb (p x)) (rows t).
Proof.
  intros Hnd. rewrite delete_all_rows. apply filter_ext_in. intros x Hx. f_equal.
  destruct (p x) eqn:Ep.
  - apply existsb_exists. exists x. split; [|apply Z.eqb_refl].
    apply filter_In. now split.
  - destruct (existsb _ _) eqn:E; [|reflexivity].
    apply existsb_exists in E as (y & Hy & Hk). apply Z.eqb_eq in Hk.
    apply filter_In in Hy as [Hy Hp].
    assert (x = y) by now apply (key_names_row (rows t)).
    congruence.
Qed.

Lemma delete_one_length (r : R) (t : Table R) :
  NoDup (keys t) -> In r (rows t) ->
  (List.length (rows (delete r t)) + 1)%nat = List.length (rows t).
Proof.
  intros Hnd Hr. unfold delete; cbn [rows].
  rewrite <- (filter_split_length (fun x => pk x =? pk r) (rows t)). f_equal.
  unfold keys in Hnd. induction (rows t) as [|a l IH]; simpl in *; [contradiction|].
  inversion Hnd as [|? ? Hna Hnd']; subst.
  destruct Hr as [->|Hr].
  - rewrite Z.eqb_refl. simpl. f_equal.
    replace (filter (fun x => pk x =? pk r) l) with (@nil R); [reflexivity|].
    symmetry. clear IH Hnd Hnd'. induction l as [|b l IHl]; simpl in *; [reflexivity|].
    destruct (Z.eqb_spec (pk b) (pk r)) as [E|E].
    + exfalso. apply Hna. left. exact E.
    + apply IHl. tauto.
  - destruct (Z.eqb_spec (pk a) (pk r)) as [E|E].
    + exfalso. apply Hna. rewrite E. now apply in_map.
    + now apply IH.
Qed.

End Counting.

(** The functions under a list of roles with distinct keys are as many as
    the functions that refer to one of them. *)
Lemma functions_under_roles_length (rs : list Role.t) (db : DB) :
  NoDup (map Role.id rs) ->
  List.length (flat_map (fun r => Role_functions r db) rs)
  = List.length (filter (fun f => existsb (fun r => Function.role_id f =? Role.id r) rs)
                   (rows (functions db))).
Proof.
  induction rs as [|r rs IH]; intros Hnd.
  - simpl. induction (rows (functions db)) as [|a l IHl]; simpl; auto.
  - inversion Hnd as [|? ? Hna Hnd']; subst.
    cbn [flat_map existsb]. rewrite length_app, IH by exact Hnd'.
    rewrite (filter_or_length (R := Function.t)).
    + reflexivity.
    + intros f _ Ef. apply Z.eqb_eq in Ef.
      destruct (existsb _ rs) eqn:E; [|reflexivity]. exfalso.
      apply existsb_exists in E as (r' & Hr' & E). apply Z.eqb_eq in E.
      apply Hna. rewrite <- Ef, E. now apply in_map.
Qed.

(** Deleting the functions under the roles leaves the functions that refer
    to none of them. *)
Lemma delete_functions_under_roles (rs : list Role.t) (db : DB) :
  NoDup (keys (functions db)) ->
  rows (delete_all (flat_map (fun r => Role_functions r db) rs) (functions db))
  = filter (fun f => negb (existsb (fun r => Function.role_id f =? Role.id r) rs))
      (rows (functions db)).
Proof.
  intros Hnd. rewrite delete_all_rows. apply filter_ext_in. intros f Hf. f_equal.
  destruct (existsb (fun r => Function.role_id f =? Role.id r) rs) eqn:Ep.
  - apply existsb_exists in Ep as (r & Hr & E).
    apply existsb_exists. exists f. split; [|apply Z.eqb_refl].
    apply in_flat_map. exists r. split; [exact Hr|].
    unfold Role_functions, Query.all, Query.filter, query_Function.
    apply filter_In. now split.
  - destruct (existsb _ (flat_map _ rs)) eqn:E; [|reflexivity].
    apply existsb_exists in E as (g & Hg & Hk). apply Z.eqb_eq in Hk.
    apply in_flat_map in Hg as (r & Hr & Hg).
    unfold Role_functions, Query.all, Query.filter, query_Function in Hg.
    apply filter_In in Hg as [Hg Hgr].
    assert (f = g) by now apply (key_names_row (rows (functions db))).
    subst g.
    assert (Ht : existsb (fun r => Function.role_id f =? Role.id r) rs = true)
      by (apply existsb_exists; now exists r).
    congruence.
Qed.

(** ** Cascade on delete *)

(** C1: for a stored Department with N Roles and M Functions in total under
    those Roles, delete(department_id) returns the department and removes
    exactly N + M + 1 rows; afterwards get on the department, on each of its
    roles and on each of their functions returns not-found. *)
Theorem delete_department_cascades (db : DB) (d : Department.t) :
  wf db -> In d (rows (departments db)) ->
  let rs := Department_roles d db in
  let fs := flat_map (fun r => Role_functions r db) rs in
  exists db',
    crud.delete_department (Department.id d) db = Return (Some d) db'
    /\ (row_count db' + (List.length rs + List.length fs + 1) = row_count db)%nat
    /\ (forall r, In r rs -> crud.get_role (Role.id r) db' = Return None db')
    /\ (forall f, In f fs -> crud.get_function (Function.id f) db' = Return None db')
    /\ crud.get_department (Department.id d) db' = Return None db'.
Proof.
  intros (Ht & Hd & Hr & Hf & _) Hin rs fs.
  pose proof (table_ok_nodup _ Hd) as Nd.
  pose proof (table_ok_nodup _ Hr) as Nr.
  pose proof (table_ok_nodup _ Hf) as Nf.
  assert (Hg : crud.get_department (Department.id d) db = Return (Some d) db).
  { unfold crud.get_department, select, query_Department. f_equal.
    exact (by_key_present (rows (departments db)) d Nd Hin). }
  rewrite (delete_department_returns _ _ _ Hg). eexists. split; [reflexivity|].
  fold rs. fold fs. split; [|split; [|split]].
  - unfold row_count; cbn [tasks departments roles functions].
    pose proof (delete_one_length d (departments db) Nd Hin) as Cd.
    assert (Cr : (List.length (rows (delete_all rs (roles db))) + List.length rs)%nat
                 = List.length (rows (roles db))).
    { unfold rs, Department_roles, Query.all, Query.filter, query_Role.
      rewrite delete_all_picked by exact Nr. apply filter_split_length. }
    assert (Cf : (List.length (rows (delete_all fs (functions db))) + List.length fs)%nat
                 = List.length (rows (functions db))).
    { unfold fs. rewrite delete_functions_under_roles by exact Nf.
      rewrite functions_under_roles_length.
      - apply (filter_split_length (R := Function.t)).
      - apply sorted_nodup.
        unfold rs, Department_roles, Query.all, Query.filter, query_Role.
        exact (sorted_filter (R := Role.t) _ (rows (roles db)) (proj1 Hr)). }
    lia.
  - intros r Hr'. unfold crud.get_role, select, query_Role; cbn [roles]. f_equal.
    pose proof (by_key_absent (R := Role.t) (Role.id r)
                  (rows (delete_all rs (roles db)))) as E.
    cbn [pk Role_mapped] in E. apply E. intros Hk.
    apply in_map_iff in Hk as (x & Hk & Hx).
    apply delete_all_in in Hx as [_ Hno]. apply Hno.
    cbn [pk Role_mapped Function_mapped]. rewrite Hk. now apply in_map.
  - intros f Hf'. unfold crud.get_function, select, query_Function; cbn [functions]. f_equal.
    pose proof (by_key_absent (R := Function.t) (Function.id f)
                  (rows (delete_all fs (functions db)))) as E.
    cbn [pk Function_mapped] in E. apply E. intros Hk.
    apply in_map_iff in Hk as (x & Hk & Hx).
    apply delete_all_in in Hx as [_ Hno]. apply Hno.
    cbn [pk Role_mapped Function_mapped]. rewrite Hk. now apply in_map.
  - unfold crud.get_department, select, query_Department; cbn [departments]. f_equal.
    pose proof (by_key_absent (R := Department.t) (Department.id d)
                  (rows (delete d (departments db)))) as E.
    cbn [pk Department_mapped] in E. apply E. intros Hk.
    apply in_map_iff in Hk as (x & Hk & Hx).
    apply delete_in in Hx as [_ Hne]. now apply Hne.
Qed.

Lemma delete_department_cascades_witness :
  wf sample_db
  /\ In (Department.mk 1 "Engineering" None 10 None) (rows (departments sample_db))
  /\ exists db',
       crud.delete_department 1 sample_db
       = Return (Some (Department.mk 1 "Engineering" None 10 None)) db'
       /\ (row_count db' + (2 + 3 + 1) = row_count sample_db)%nat.
Proof.
  split; [exact sample_db_wf|]. split; [simpl; tauto|].
  destruct (delete_department_cascades sample_db
              (Department.mk 1 "Engineering" None 10 None) sample_db_wf)
    as (db' & Hdel & Hcount & _).
  - simpl; tauto.
  - exists db'. split; [exact Hdel|exact Hcount].
Defined.

(** ** Create, then get *)

(** C3: for every entity type and every valid create payload, get applied
    to the id of the freshly created entity returns that same entity, whose
    base fields are those of the payload.  A Role payload is valid when its
    department is stored, a Function payload when its role is. *)
Theorem create_then_get (db : DB) (now : Z) :
  wf db ->
  (forall task, exists t db',
      crud.create_task now task db = Return t db'
      /\ crud.get_task (Task.id t) db' = Return (Some t) db'
      /\ Task_fields t = task)
  /\ (forall department, exists d db',
      crud.create_department now department db = Return d db'
      /\ crud.get_department (Department.id d) db' = Return (Some d) db'
      /\ Department_fields d = department)
  /\ (forall role, In (RoleCreate.department_id role) (keys (departments db)) ->
      exists r db',
        crud.create_role now role db = Return r db'
        /\ crud.get_role (Role.id r) db' = Return (Some r) db'
        /\ Role_fields r = role)
  /\ (forall function, In (FunctionCreate.role_id function) (keys (roles db)) ->
      exists f db',
        crud.create_function now function db = Return f db'
        /\ crud.get_function (Function.id f) db' = Return (Some f) db'
        /\ Function_fields f = function).
Proof.
  intros (Ht & Hd & Hr & Hf & _).
  apply fresh_key in Ht, Hd, Hr, Hf.
  split; [|split; [|split]].
  - intros task. rewrite (create_task_returns _ _ _ Ht).
    do 2 eexists. split; [reflexivity|]. split; [|now destruct task].
    pose proof (by_key_appended _ (Task_new now task (next_id (tasks db))) Ht) as E.
    unfold crud.get_task, select, query_Task, insert. simpl in *. now rewrite E.
  - intros department. rewrite (create_department_returns _ _ _ Hd).
    do 2 eexists. split; [reflexivity|]. split; [|now destruct department].
    pose proof (by_key_appended _
                  (Department_new now department (next_id (departments db))) Hd) as E.
    unfold crud.get_department, select, query_Department, insert. simpl in *.
    now rewrite E.
  - intros role Hfk. rewrite (create_role_returns _ _ _ Hr).
    apply department_exists_iff in Hfk. rewrite Hfk.
    do 2 eexists. split; [reflexivity|]. split; [|now destruct role].
    pose proof (by_key_appended _ (Role_new now role (next_id (roles db))) Hr) as E.
    unfold crud.get_role, select, query_Role, insert. simpl in *. now rewrite E.
  - intros function Hfk. rewrite (create_function_returns _ _ _ Hf).
    apply role_exists_iff in Hfk. rewrite Hfk.
    do 2 eexists. split; [reflexivity|]. split; [|now destruct function].
    pose proof (by_key_appended _
                  (Function_new now function (next_id (functions db))) Hf) as E.
    unfold crud.get_function, select, query_Function, insert. simpl in *.
    now rewrite E.
Qed.

Lemma create_then_get_witness :
  wf sample_db
  /\ In 2 (keys (departments sample_db))
  /\ exists r db',
       crud.create_role 30 (RoleCreate.mk "Support" None 2) sample_db = Return r db'
       /\ crud.get_role (Role.id r) db' = Return (Some r) db'
       /\ Role_fields r = RoleCreate.mk "Support" None 2.
Proof.
  split; [exact sample_db_wf|]. split; [simpl; tauto|].
  destruct (create_then_get sample_db 30 sample_db_wf) as (_ & _ & Hrole & _).
  apply (Hrole (RoleCreate.mk "Support" None 2)). simpl; tauto.
Defined.

(** ** Updates *)

Lemma option_string_eqb_eq (x y : option string) :
  option_eqb String.eqb x y = true <-> x = y.
Proof.
  destruct x as [a|], y as [b|]; simpl; split; intros E;
    try discriminate; try reflexivity.
  - apply String.eqb_eq in E. now subst.
  - injection E as ->. apply String.eqb_refl.
Qed.

(** An object is clean after the [setattr] loop exactly when the payload
    repeats its base fields. *)
Lemma Task_clean_iff (task : TaskCreate.t) (old : Task.t) :
  Task_clean old (Task_setattrs task old) = true <-> Task_fields old = task.
Proof.
  destruct task as [t d c], old as [i t' d' c' ca ua].
  unfold Task_clean, Task_fields; simpl.
  rewrite !andb_true_iff, String.eqb_eq, option_string_eqb_eq, Bool.eqb_true_iff.
  split; [intros [[-> ->] ->]; reflexivity|intros E; injection E; auto].
Qed.

Lemma Department_clean_iff (department : DepartmentCreate.t) (old : Department.t) :
  Department_clean old (Department_setattrs department old) = true
  <-> Department_fields old = department.
Proof.
  destruct department as [n d], old as [i n' d' ca ua].
  unfold Department_clean, Department_fields; simpl.
  rewrite !andb_true_iff, String.eqb_eq, option_string_eqb_eq.
  split; [intros [-> ->]; reflexivity|intros E; injection E; auto].
Qed.

Lemma Role_clean_iff (role : RoleCreate.t) (old : Role.t) :
  Role_clean old (Role_setattrs role old) = true <-> Role_fields old = role.
Proof.
  destruct role as [n d k], old as [i n' d' k' ca ua].
  unfold Role_clean, Role_fields; simpl.
  rewrite !andb_true_iff, String.eqb_eq, option_string_eqb_eq, Z.eqb_eq.
  split; [intros [[-> ->] ->]; reflexivity|intros E; injection E; auto].
Qed.

Lemma Function_clean_iff (function : FunctionCreate.t) (old : Function.t) :
  Function_clean old (Function_setattrs function old) = true
  <-> Function_fields old = function.
Proof.
  destruct function as [n d k], old as [i n' d' k' ca ua].
  unfold Function_clean, Function_fields; simpl.
  rewrite !andb_true_iff, String.eqb_eq, option_string_eqb_eq, Z.eqb_eq.
  split; [intros [[-> ->] ->]; reflexivity|intros E; injection E; auto].
Qed.


(** The row an UPDATE has written is the row a later get returns. *)
Lemma stored_after_update_task (db : DB) (id : Z) (old new : Task.t) :
  crud.get_task id db = Return (Some old) db -> Task.id new = Task.id old ->
  crud.get_task id (set_tasks (update new (tasks db)) db)
  = Return (Some new) (set_tasks (update new (tasks db)) db).
Proof.
  unfold crud.get_task, select, query_Task. intros Hg Hid. injection Hg as Hg.
  pose proof (first_filter_some _ _ _ Hg) as [_ Hk]. apply Z.eqb_eq in Hk. subst id.
  pose proof (by_key_updated (rows (tasks db)) old new Hid Hg) as Hu.
  unfold update; simpl in *. now rewrite Hu.
Qed.

Lemma stored_after_update_department (db : DB) (id : Z) (old new : Department.t) :
  crud.get_department id db = Return (Some old) db -> Department.id new = Department.id old ->
  crud.get_department id (set_departments (update new (departments db)) db)
  = Return (Some new) (set_departments (update new (departments db)) db).
Proof.
  unfold crud.get_department, select, query_Department. intros Hg Hid. injection Hg as Hg.
  pose proof (first_filter_some _ _ _ Hg) as [_ Hk]. apply Z.eqb_eq in Hk. subst id.
  pose proof (by_key_updated (rows (departments db)) old new Hid Hg) as Hu.
  unfold update; simpl in *. now rewrite Hu.
Qed.

Lemma stored_after_update_role (db : DB) (id : Z) (old new : Role.t) :
  crud.get_role id db = Return (Some old) db -> Role.id new = Role.id old ->
  crud.get_role id (set_roles (update new (roles db)) db)
  = Return (Some new) (set_roles (update new (roles db)) db).
Proof.
  unfold crud.get_role, select, query_Role. intros Hg Hid. injection Hg as Hg.
  pose proof (first_filter_some _ _ _ Hg) as [_ Hk]. apply Z.eqb_eq in Hk. subst id.
  pose proof (by_key_updated (rows (roles db)) old new Hid Hg) as Hu.
  unfold update; simpl in *. now rewrite Hu.
Qed.

Lemma stored_after_update_function (db : DB) (id : Z) (old new : Function.t) :
  crud.get_function id db = Return (Some old) db -> Function.id new = Function.id old ->
  crud.get_function id (set_functions (update new (functions db)) db)
  = Return (Some new) (set_functions (update new (functions db)) db).
Proof.
  unfold crud.get_function, select, query_Function. intros Hg Hid. injection Hg as Hg.
  pose proof (first_filter_some _ _ _ Hg) as [_ Hk]. apply Z.eqb_eq in Hk. subst id.
  pose proof (by_key_updated (rows (functions db)) old new Hid Hg) as Hu.
  unfold update; simpl in *. now rewrite Hu.
Qed.

(** C9: for every existing entity, a successful update changes only the
    base fields and [updated_at]: the id and [created_at] of the entity it
    returns, which is the entity stored under that id afterwards, are those
    the entity had before. *)
Theorem update_keeps_id_and_created_at (db : DB) (now id : Z) :
  (forall task old new db',
      crud.get_task id db = Return (Some old) db ->
      crud.update_task now id task db = Return (Some new) db' ->
      Task.id new = Task.id old /\ Task.created_at new = Task.created_at old
      /\ crud.get_task id db' = Return (Some new) db')
  /\ (forall department old new db',
      crud.get_department id db = Return (Some old) db ->
      crud.update_department now id department db = Return (Some new) db' ->
      Department.id new = Department.id old
      /\ Department.created_at new = Department.created_at old
      /\ crud.get_department id db' = Return (Some new) db')
  /\ (forall role old new db',
      crud.get_role id db = Return (Some old) db ->
      crud.update_role now id role db = Return (Some new) db' ->
      Role.id new = Role.id old /\ Role.created_at new = Role.created_at old
      /\ crud.get_role id db' = Return (Some new) db')
  /\ (forall function old new db',
      crud.get_function id db = Return (Some old) db ->
      crud.update_function now id function db = Return (Some new) db' ->
      Function.id new = Function.id old
      /\ Function.created_at new = Function.created_at old
      /\ crud.get_function id db' = Return (Some new) db').
Proof.
  split; [|split; [|split]].
  - intros task old new db' Hg Hu.
    rewrite (update_task_returns _ _ _ _ _ Hg) in Hu.
    destruct (Task_clean _ _); injection Hu as <- <-.
    + auto.
    + repeat split. now apply stored_after_update_task with (old := old).
  - intros department old new db' Hg Hu.
    rewrite (update_department_returns _ _ _ _ _ Hg) in Hu.
    destruct (Department_clean _ _); injection Hu as <- <-.
    + auto.
    + repeat split. now apply stored_after_update_department with (old := old).
  - intros role old new db' Hg Hu.
    rewrite (update_role_returns _ _ _ _ _ Hg) in Hu.
    destruct (Role_clean _ _); [|destruct (_ || _); [|discriminate]];
      injection Hu as <- <-.
    + auto.
    + repeat split. now apply stored_after_update_role with (old := old).
  - intros function old new db' Hg Hu.
    rewrite (update_function_returns _ _ _ _ _ Hg) in Hu.
    destruct (Function_clean _ _); [|destruct (_ || _); [|discriminate]];
      injection Hu as <- <-.
    + auto.
    + repeat split. now apply stored_after_update_function with (old := old).
Qed.

Lemma update_keeps_id_and_created_at_witness :
  crud.get_role 2 sample_db = Return (Some (Role.mk 2 "Frontend" None 1 13 None)) sample_db
  /\ exists db',
       crud.update_role 40 2 (RoleCreate.mk "Web" None 2) sample_db
       = Return (Some (Role.mk 2 "Web" None 2 13 (Some 40))) db'
       /\ Role.id (Role.mk 2 "Web" None 2 13 (Some 40)) = 2
       /\ Role.created_at (Role.mk 2 "Web" None 2 13 (Some 40)) = 13
       /\ crud.get_role 2 db' = Return (Some (Role.mk 2 "Web" None 2 13 (Some 40))) db'.
Proof.
  split; [reflexivity|].
  exists (final (crud.update_role 40 2 (RoleCreate.mk "Web" None 2) sample_db)).
  split; [reflexivity|].
  destruct (update_keeps_id_and_created_at sample_db 40 2) as (_ & _ & Hrole & _).
  exact (Hrole (RoleCreate.mk "Web" None 2) _ _ _ eq_refl eq_refl).
Defined.



(** ** Identifiers *)

Lemma reachable_wf (db : DB) : reachable db -> wf db.
Proof.
  induction 1 as [|op db _ IH]; [exact wf_empty_db|now apply run_wf].
Qed.

Section RowsEvolve.
Context {R : Type} `{Mapped R}.

Lemma rows_evolve_refl (l : list R) (fresh : Z) : rows_evolve l l fresh.
Proof.
  left. exists (fun x => x), (fun _ => true). split; [reflexivity|].
  rewrite map_id. induction l as [|a l IH]; simpl; congruence.
Qed.

Lemma rows_evolve_insert (mk : Z -> R) (t : Table R) :
  pk (mk (next_id t)) = next_id t ->
  rows_evolve (rows t) (rows (snd (insert mk t))) (next_id t).
Proof. intros Hk. right. exists (mk (next_id t)). now split. Qed.

Lemma rows_evolve_update (r : R) (t : Table R) (fresh : Z) :
  rows_evolve (rows t) (rows (update r t)) fresh.
Proof.
  left. exists (fun x => if pk x =? pk r then r else x), (fun _ => true). split.
  - intros x. destruct (Z.eqb_spec (pk x) (pk r)); congruence.
  - unfold update; cbn [rows]. f_equal.
    induction (rows t) as [|a l IH]; simpl; congruence.
Qed.

Lemma rows_evolve_delete (r : R) (t : Table R) (fresh : Z) :
  rows_evolve (rows t) (rows (delete r t)) fresh.
Proof.
  left. exists (fun x => x), (fun x => negb (pk x =? pk r)). split; [reflexivity|].
  now rewrite map_id.
Qed.

Lemma rows_evolve_delete_all (ds : list R) (t : Table R) (fresh : Z) :
  rows_evolve (rows t) (rows (delete_all ds t)) fresh.
Proof.
  left. exists (fun x => x), (fun x => negb (existsb (fun d => pk x =? pk d) ds)).
  split; [reflexivity|]. now rewrite map_id, delete_all_rows.
Qed.

End RowsEvolve.

Ltac rows_evolve_step :=
  cbn [final set_tasks set_departments set_roles set_functions
       tasks departments roles functions];
  first [ apply rows_evolve_refl
        | apply rows_evolve_update
        | apply rows_evolve_delete
        | apply rows_evolve_delete_all
        | apply rows_evolve_insert; reflexivity ].

Lemma run_rows_evolve (op : Op) (db : DB) :
  wf db ->
  rows_evolve (rows (tasks db)) (rows (tasks (run op db))) (next_id (tasks db))
  /\ rows_evolve (rows (departments db)) (rows (departments (run op db)))
       (next_id (departments db))
  /\ rows_evolve (rows (roles db)) (rows (roles (run op db))) (next_id (roles db))
  /\ rows_evolve (rows (functions db)) (rows (functions (run op db)))
       (next_id (functions db)).
Proof.
  intros (Ht & Hd & Hr & Hf & _).
  destruct op; simpl run.
  - rewrite create_task_returns by now apply fresh_key.
    repeat split; rows_evolve_step.
  - destruct (get_task_cases db task_id) as [(old & Hg & _)|[Hg _]].
    + rewrite (update_task_returns _ _ _ _ _ Hg).
      destruct (Task_clean _ _); repeat split; rows_evolve_step.
    + rewrite (proj1 (absent_task _ _ Hg)). repeat split; rows_evolve_step.
  - destruct (get_task_cases db task_id) as [(old & Hg & _)|[Hg _]].
    + rewrite (delete_task_returns _ _ _ Hg). repeat split; rows_evolve_step.
    + rewrite (proj2 (absent_task _ _ Hg)). repeat split; rows_evolve_step.
  - rewrite create_department_returns by now apply fresh_key.
    repeat split; rows_evolve_step.
  - destruct (get_department_cases db department_id) as [(old & Hg & _)|[Hg _]].
    + rewrite (update_department_returns _ _ _ _ _ Hg).
      destruct (Department_clean _ _); repeat split; rows_evolve_step.
    + rewrite (proj1 (absent_department _ _ Hg)). repeat split; rows_evolve_step.
  - destruct (get_department_cases db department_id) as [(old & Hg & _)|[Hg _]].
    + rewrite (delete_department_returns _ _ _ Hg). repeat split; rows_evolve_step.
    + rewrite (proj2 (absent_department _ _ Hg)). repeat split; rows_evolve_step.
  - rewrite create_role_returns by now apply fresh_key.
    destruct (department_exists _ db); repeat split; rows_evolve_step.
  - destruct (get_role_cases db role_id) as [(old & Hg & _)|[Hg _]].
    + rewrite (update_role_returns _ _ _ _ _ Hg).
      destruct (Role_clean _ _); [|destruct (_ || _)]; repeat split; rows_evolve_step.
    + rewrite (proj1 (absent_role _ _ Hg)). repeat split; rows_evolve_step.
  - destruct (get_role_cases db role_id) as [(old & Hg & _)|[Hg _]].
    + rewrite (delete_role_returns _ _ _ Hg). repeat split; rows_evolve_step.
    + rewrite (proj2 (absent_role _ _ Hg)). repeat split; rows_evolve_step.
  - rewrite create_function_returns by now apply fresh_key.
    destruct (role_exists _ db); repeat split; rows_evolve_step.
  - destruct (get_function_cases db function_id) as [(old & Hg & _)|[Hg _]].
    + rewrite (update_function_returns _ _ _ _ _ Hg).
      destruct (Function_clean _ _); [|destruct (_ || _)]; repeat split; rows_evolve_step.
    + rewrite (proj1 (absent_function _ _ Hg)). repeat split; rows_evolve_step.
  - destruct (get_function_cases db function_id) as [(old & Hg & _)|[Hg _]].
    + rewrite (delete_function_returns _ _ _ Hg). repeat split; rows_evolve_step.
    + rewrite (proj2 (absent_function _ _ Hg)). repeat split; rows_evolve_step.
Qed.

(** C8: in every store the program reaches, for every entity type: the id
    of a created entity is the one the store hands out, not in use by a
    stored entity; the entity is stored under it, after the rows already
    there, get on the id returns it, and a later create gets another id; no
    two stored entities of a type share an id; and every operation leaves
    the store with ids unique again and changes no id: each row it leaves
    comes from a row before it with the same key, in the same order, unless
    it is the one created row, which is appended with the unused key. *)
Theorem ids_assigned_unique_immutable (db : DB) :
  reachable db ->
  ((forall now task, exists t db',
       crud.create_task now task db = Return t db'
       /\ Task.id t = next_id (tasks db) /\ ~ In (Task.id t) (keys (tasks db))
       /\ rows (tasks db') = (rows (tasks db) ++ [t])%list
       /\ crud.get_task (Task.id t) db' = Return (Some t) db'
       /\ forall now2 task2 t2 db2,
            crud.create_task now2 task2 db' = Return t2 db2 -> Task.id t2 <> Task.id t)
   /\ (forall now department, exists d db',
       crud.create_department now department db = Return d db'
       /\ Department.id d = next_id (departments db)
       /\ ~ In (Department.id d) (keys (departments db))
       /\ rows (departments db') = (rows (departments db) ++ [d])%list
       /\ crud.get_department (Department.id d) db' = Return (Some d) db'
       /\ forall now2 department2 d2 db2,
            crud.create_department now2 department2 db' = Return d2 db2 ->
            Department.id d2 <> Department.id d)
   /\ (forall now role, In (RoleCreate.department_id role) (keys (departments db)) ->
       exists r db',
         crud.create_role now role db = Return r db'
         /\ Role.id r = next_id (roles db) /\ ~ In (Role.id r) (keys (roles db))
         /\ rows (roles db') = (rows (roles db) ++ [r])%list
         /\ crud.get_role (Role.id r) db' = Return (Some r) db'
         /\ forall now2 role2 r2 db2,
              crud.create_role now2 role2 db' = Return r2 db2 -> Role.id r2 <> Role.id r)
   /\ (forall now function, In (FunctionCreate.role_id function) (keys (roles db)) ->
       exists f db',
         crud.create_function now function db = Return f db'
         /\ Function.id f = next_id (functions db)
         /\ ~ In (Function.id f) (keys (functions db))
         /\ rows (functions db') = (rows (functions db) ++ [f])%list
         /\ crud.get_function (Function.id f) db' = Return (Some f) db'
         /\ forall now2 function2 f2 db2,
              crud.create_function now2 function2 db' = Return f2 db2 ->
              Function.id f2 <> Function.id f))
  /\ (NoDup (keys (tasks db)) /\ NoDup (keys (departments db))
      /\ NoDup (keys (roles db)) /\ NoDup (keys (functions db)))
  /\ (forall op,
        (NoDup (keys (tasks (run op db))) /\ NoDup (keys (departments (run op db)))
         /\ NoDup (keys (roles (run op db))) /\ NoDup (keys (functions (run op db))))
        /\ (keys_evolve (keys (tasks db)) (keys (tasks (run op db)))
            /\ keys_evolve (keys (departments db)) (keys (departments (run op db)))
            /\ keys_evolve (keys (roles db)) (keys (roles (run op db)))
            /\ keys_evolve (keys (functions db)) (keys (functions (run op db))))
        /\ rows_evolve (rows (tasks db)) (rows (tasks (run op db))) (next_id (tasks db))
        /\ rows_evolve (rows (departments db)) (rows (departments (run op db)))
             (next_id (departments db))
        /\ rows_evolve (rows (roles db)) (rows (roles (run op db))) (next_id (roles db))
        /\ rows_evolve (rows (functions db)) (rows (functions (run op db)))
             (next_id (functions db))).
Proof.
  intros Hreach. pose proof (reachable_wf db Hreach) as Hwf.
  pose proof Hwf as (Ht & Hd & Hr & Hf & _).
  split; [|split].
  - split; [|split; [|split]].
    + intros now task. pose proof (fresh_key _ Ht) as Hk.
      pose proof (create_task_returns db now task Hk) as Hc.
      pose proof (run_wf (create_task now task) db Hwf) as Hw.
      cbn [run] in Hw. rewrite Hc in Hw. cbn [final] in Hw.
      do 2 eexists. split; [exact Hc|]. split; [reflexivity|]. split; [exact Hk|].
      split; [reflexivity|]. split.
      * pose proof (by_key_appended _ (Task_new now task (next_id (tasks db))) Hk) as E.
        unfold crud.get_task, select, query_Task, insert. simpl in *. now rewrite E.
      * intros now2 task2 t2 db2 H2. destruct Hw as (Ht' & _).
        rewrite (create_task_returns _ _ _ (fresh_key _ Ht')) in H2.
        injection H2 as <- _. simpl. lia.
    + intros now department. pose proof (fresh_key _ Hd) as Hk.
      pose proof (create_department_returns db now department Hk) as Hc.
      pose proof (run_wf (create_department now department) db Hwf) as Hw.
      cbn [run] in Hw. rewrite Hc in Hw. cbn [final] in Hw.
      do 2 eexists. split; [exact Hc|]. split; [reflexivity|]. split; [exact Hk|].
      split; [reflexivity|]. split.
      * pose proof (by_key_appended _
                      (Department_new now department (next_id (departments db))) Hk) as E.
        unfold crud.get_department, select, query_Department, insert. simpl in *.
        now rewrite E.
      * intros now2 department2 d2 db2 H2. destruct Hw as (_ & Hd' & _).
        rewrite (create_department_returns _ _ _ (fresh_key _ Hd')) in H2.
        injection H2 as <- _. simpl. lia.
    + intros now role Hfk. apply department_exists_iff in Hfk.
      pose proof (fresh_key _ Hr) as Hk.
      pose proof (create_role_returns db now role Hk) as Hc. rewrite Hfk in Hc.
      pose proof (run_wf (create_role now role) db Hwf) as Hw.
      cbn [run] in Hw. rewrite Hc in Hw. cbn [final] in Hw.
      do 2 eexists. split; [exact Hc|]. split; [reflexivity|]. split; [exact Hk|].
      split; [reflexivity|]. split.
      * pose proof (by_key_appended _ (Role_new now role (next_id (roles db))) Hk) as E.
        unfold crud.get_role, select, query_Role, insert. simpl in *. now rewrite E.
      * intros now2 role2 r2 db2 H2. destruct Hw as (_ & _ & Hr' & _).
        rewrite (create_role_returns _ _ _ (fresh_key _ Hr')) in H2.
        match type of H2 with (if ?c then _ else _) = _ => destruct c end;
          [|discriminate].
        injection H2 as <- _. simpl. lia.
    + intros now function Hfk. apply role_exists_iff in Hfk.
      pose proof (fresh_key _ Hf) as Hk.
      pose proof (create_function_returns db now function Hk) as Hc. rewrite Hfk in Hc.
      pose proof (run_wf (create_function now function) db Hwf) as Hw.
      cbn [run] in Hw. rewrite Hc in Hw. cbn [final] in Hw.
      do 2 eexists. split; [exact Hc|]. split; [reflexivity|]. split; [exact Hk|].
      split; [reflexivity|]. split.
      * pose proof (by_key_appended _
                      (Function_new now function (next_id (functions db))) Hk) as E.
        unfold crud.get_function, select, query_Function, insert. simpl in *.
        now rewrite E.
      * intros now2 function2 f2 db2 H2. destruct Hw as (_ & _ & _ & Hf' & _).
        rewrite (create_function_returns _ _ _ (fresh_key _ Hf')) in H2.
        match type of H2 with (if ?c then _ else _) = _ => destruct c end;
          [|discriminate].
        injection H2 as <- _. simpl. lia.
  - repeat split; now apply table_ok_nodup.
  - intros op. split; [|split; [now apply run_evolves|now apply run_rows_evolve]].
    destruct (run_wf op db Hwf) as (Ht' & Hd' & Hr' & Hf' & _).
    repeat split; now apply table_ok_nodup.
Qed.

Lemma ids_assigned_unique_immutable_witness :
  reachable (run (create_task 10 (TaskCreate.mk "Buy milk" None false)) empty_db)
  /\ NoDup (keys (tasks (run (create_task 11 (TaskCreate.mk "Call" None true))
                           (run (create_task 10 (TaskCreate.mk "Buy milk" None false))
                              empty_db))))
  /\ rows_evolve
       (rows (tasks (run (create_task 10 (TaskCreate.mk "Buy milk" None false)) empty_db)))
       (rows (tasks (run (create_task 11 (TaskCreate.mk "Call" None true))
                       (run (create_task 10 (TaskCreate.mk "Buy milk" None false))
                          empty_db))))
       2
  /\ exists t db',
       crud.create_task 11 (TaskCreate.mk "Call" None true)
         (run (create_task 10 (TaskCreate.mk "Buy milk" None false)) empty_db)
       = Return t db'
       /\ Task.id t = 2
       /\ crud.get_task 2 db' = Return (Some t) db'.
Proof.
  assert (Hreach : reachable
            (run (create_task 10 (TaskCreate.mk "Buy milk" None false)) empty_db))
    by (apply reachable_step, reachable_empty).
  split; [exact Hreach|].
  destruct (ids_assigned_unique_immutable _ Hreach) as ((Hcreate & _) & _ & Hop).
  destruct (Hop (create_task 11 (TaskCreate.mk "Call" None true)))
    as ((Hnd & _) & _ & Hrows & _).
  split; [exact Hnd|]. split; [exact Hrows|].
  destruct (Hcreate 11 (TaskCreate.mk "Call" None true))
    as (t & db' & Hc & Hid & _ & _ & Hget & _).
  exists t, db'. split; [exact Hc|]. split; [exact Hid|].
  rewrite Hid in Hget. exact Hget.
Defined.

(** ** Listing *)

(** C5: for every entity type, list(skip=0, limit=100) returns the first
    100 rows of the table and list(skip=k, limit) returns the unrestricted
    list with its first k elements dropped, capped at limit elements.  The
    table is in creation order: a created entity is appended after the rows
    already stored, and no operation reorders the stored ids (they are only
    dropped or appended). *)
Theorem list_in_insertion_order (db : DB) :
  wf db ->
  (forall skip limit : nat,
      crud.get_tasks (Z.of_nat skip) (Z.of_nat limit) db
        = Return (firstn limit (skipn skip (query_Task db))) db
      /\ crud.get_departments (Z.of_nat skip) (Z.of_nat limit) db
        = Return (firstn limit (skipn skip (query_Department db))) db
      /\ crud.get_roles (Z.of_nat skip) (Z.of_nat limit) db
        = Return (firstn limit (skipn skip (query_Role db))) db
      /\ crud.get_functions (Z.of_nat skip) (Z.of_nat limit) db
        = Return (firstn limit (skipn skip (query_Function db))) db)
  /\ (crud.get_tasks 0 100 db = Return (firstn 100 (query_Task db)) db
      /\ crud.get_departments 0 100 db = Return (firstn 100 (query_Department db)) db
      /\ crud.get_roles 0 100 db = Return (firstn 100 (query_Role db)) db
      /\ crud.get_functions 0 100 db = Return (firstn 100 (query_Function db)) db)
  /\ ((forall now task, exists t db',
         crud.create_task now task db = Return t db'
         /\ query_Task db' = (query_Task db ++ [t])%list)
      /\ (forall now department, exists d db',
         crud.create_department now department db = Return d db'
         /\ query_Department db' = (query_Department db ++ [d])%list)
      /\ (forall now role, In (RoleCreate.department_id role) (keys (departments db)) ->
          exists r db',
            crud.create_role now role db = Return r db'
            /\ query_Role db' = (query_Role db ++ [r])%list)
      /\ (forall now function, In (FunctionCreate.role_id function) (keys (roles db)) ->
          exists f db',
            crud.create_function now function db = Return f db'
            /\ query_Function db' = (query_Function db ++ [f])%list))
  /\ (forall op,
        keys_evolve (keys (tasks db)) (keys (tasks (run op db)))
        /\ keys_evolve (keys (departments db)) (keys (departments (run op db)))
        /\ keys_evolve (keys (roles db)) (keys (roles (run op db)))
        /\ keys_evolve (keys (functions db)) (keys (functions (run op db)))).
Proof.
  intros Hwf. pose proof Hwf as (Ht & Hd & Hr & Hf & _).
  split; [|split; [|split]].
  - intros skip limit. apply list_is_window.
  - exact (list_is_window db 0 100).
  - split; [|split; [|split]].
    + intros now task. rewrite create_task_returns by now apply fresh_key.
      now do 2 eexists.
    + intros now department. rewrite create_department_returns by now apply fresh_key.
      now do 2 eexists.
    + intros now role Hfk. apply department_exists_iff in Hfk.
      rewrite create_role_returns, Hfk by now apply fresh_key.
      now do 2 eexists.
    + intros now function Hfk. apply role_exists_iff in Hfk.
      rewrite create_function_returns, Hfk by now apply fresh_key.
      now do 2 eexists.
  - intros op. now apply run_evolves.
Qed.

Lemma list_in_insertion_order_witness :
  wf sample_db
  /\ crud.get_functions 1 2 sample_db
     = Return [Function.mk 2 "Review" None 1 16 None;
               Function.mk 3 "Design" None 2 17 None] sample_db.
Proof.
  split; [exact sample_db_wf|].
  destruct (list_in_insertion_order sample_db sample_db_wf) as (Hwin & _).
  exact (proj2 (proj2 (proj2 (Hwin 1%nat 2%nat)))).
Defined.

(** ** Nested reads and child listings *)

(** C6: GET /departments/{id} answers 404 when no department has that id;
    otherwise it returns the department with that id together with exactly
    the roles whose [department_id] is that id.  GET /roles/{id} does the
    same for a role and its functions.  The store is left as it was. *)
Theorem read_nested (db : DB) (id : Z) :
  (~ In id (keys (departments db)) ->
     org_routers.read_department id db
     = Raise (HTTPException 404 "Department not found") db)
  /\ (In id (keys (departments db)) ->
      exists resp,
        org_routers.read_department id db = Return resp db
        /\ In (DepartmentWithRoles.department resp) (rows (departments db))
        /\ Department.id (DepartmentWithRoles.department resp) = id
        /\ forall r, In r (DepartmentWithRoles.roles resp)
                     <-> In r (rows (roles db)) /\ Role.department_id r = id)
  /\ (~ In id (keys (roles db)) ->
      org_routers.read_role id db = Raise (HTTPException 404 "Role not found") db)
  /\ (In id (keys (roles db)) ->
      exists resp,
        org_routers.read_role id db = Return resp db
        /\ In (RoleWithFunctions.role resp) (rows (roles db))
        /\ Role.id (RoleWithFunctions.role resp) = id
        /\ forall f, In f (RoleWithFunctions.functions resp)
                     <-> In f (rows (functions db)) /\ Function.role_id f = id).
Proof.
  split; [|split; [|split]].
  - intros Hno. destruct (get_department_cases db id) as [(old & _ & Hin & Hid)|[Hg _]].
    + exfalso. apply Hno. rewrite <- Hid. now apply in_map.
    + unfold org_routers.read_department, response_model, bind. now rewrite Hg.
  - intros Hin. destruct (get_department_cases db id) as [(old & Hg & Hold & Hid)|[_ Hno]];
      [|contradiction].
    exists (DepartmentWithRoles.from_orm old db). split; [|split; [|split]].
    + unfold org_routers.read_department, response_model, bind. now rewrite Hg.
    + exact Hold.
    + exact Hid.
    + intros r. unfold DepartmentWithRoles.from_orm, Department_roles, Query.all,
        Query.filter, query_Role; simpl.
      rewrite filter_In, Z.eqb_eq, Hid. tauto.
  - intros Hno. destruct (get_role_cases db id) as [(old & _ & Hin & Hid)|[Hg _]].
    + exfalso. apply Hno. rewrite <- Hid. now apply in_map.
    + unfold org_routers.read_role, response_model, bind. now rewrite Hg.
  - intros Hin. destruct (get_role_cases db id) as [(old & Hg & Hold & Hid)|[_ Hno]];
      [|contradiction].
    exists (RoleWithFunctions.from_orm old db). split; [|split; [|split]].
    + unfold org_routers.read_role, response_model, bind. now rewrite Hg.
    + exact Hold.
    + exact Hid.
    + intros f. unfold RoleWithFunctions.from_orm, Role_functions, Query.all,
        Query.filter, query_Function; simpl.
      rewrite filter_In, Z.eqb_eq, Hid. tauto.
Qed.

Lemma read_nested_witness :
  In 1 (keys (departments sample_db))
  /\ ~ In 9 (keys (departments sample_db))
  /\ org_routers.read_department 9 sample_db
     = Raise (HTTPException 404 "Department not found") sample_db
  /\ exists resp,
       org_routers.read_department 1 sample_db = Return resp sample_db
       /\ forall r, In r (DepartmentWithRoles.roles resp)
                    <-> In r (rows (roles sample_db)) /\ Role.department_id r = 1.
Proof.
  assert (H1 : In 1 (keys (departments sample_db))) by (simpl; tauto).
  assert (H9 : ~ In 9 (keys (departments sample_db))) by (simpl; lia).
  split; [exact H1|]. split; [exact H9|].
  split.
  - exact (proj1 (read_nested sample_db 9) H9).
  - destruct (proj1 (proj2 (read_nested sample_db 1)) H1) as (resp & Hr & _ & _ & Hroles).
    exists resp. split; [exact Hr|exact Hroles].
Defined.

Lemma window_of_nothing {R : Type} (skip limit : Z) :
  Query.all (Query.limit limit (Query.offset skip (@nil R))) = [].
Proof.
  unfold Query.all, Query.limit, Query.offset. rewrite skipn_nil.
  destruct (limit <? 0); [reflexivity|apply firstn_nil].
Qed.

Lemma filter_nothing {R : Type} (p : R -> bool) (l : list R) :
  (forall x, In x l -> p x = false) -> filter p l = [].
Proof.
  induction l as [|a l IH]; simpl; intros Hp; [reflexivity|].
  rewrite (Hp a (or_introl eq_refl)). apply IH. intros x Hx. apply Hp. now right.
Qed.

(** C7: for every parent id that matches no stored Department
    (respectively Role), GET /departments/{id}/roles/ and
    GET /roles/{id}/functions/ return an empty sequence, not an error,
    whatever skip and limit are: the parent is not looked up. *)
Theorem children_of_absent_parent (db : DB) (id skip limit : Z) :
  wf db ->
  (~ In id (keys (departments db)) ->
     crud.get_roles_by_department id skip limit db = Return [] db
     /\ org_routers.read_roles_by_department id skip limit db = Return [] db)
  /\ (~ In id (keys (roles db)) ->
     crud.get_functions_by_role id skip limit db = Return [] db
     /\ org_routers.read_functions_by_role id skip limit db = Return [] db).
Proof.
  intros (_ & _ & _ & _ & Hrd & Hfr). rewrite Forall_forall in Hrd, Hfr.
  split; intros Hno.
  - assert (E : crud.get_roles_by_department id skip limit db = Return [] db).
    { unfold crud.get_roles_by_department, select, Query.filter, query_Role.
      rewrite filter_nothing; [now rewrite window_of_nothing|].
      intros r Hr. apply Z.eqb_neq. intros E. apply Hno. rewrite <- E. now apply Hrd. }
    split; [exact E|].
    unfold org_routers.read_roles_by_department, response_model, bind. now rewrite E.
  - assert (E : crud.get_functions_by_role id skip limit db = Return [] db).
    { unfold crud.get_functions_by_role, select, Query.filter, query_Function.
      rewrite filter_nothing; [now rewrite window_of_nothing|].
      intros f Hf. apply Z.eqb_neq. intros E. apply Hno. rewrite <- E. now apply Hfr. }
    split; [exact E|].
    unfold org_routers.read_functions_by_role, response_model, bind. now rewrite E.
Qed.

Lemma children_of_absent_parent_witness :
  wf sample_db
  /\ ~ In 7 (keys (roles sample_db))
  /\ org_routers.read_functions_by_role 7 0 100 sample_db = Return [] sample_db.
Proof.
  assert (H7 : ~ In 7 (keys (roles sample_db))) by (simpl; lia).
  split; [exact sample_db_wf|]. split; [exact H7|].
  exact (proj2 (proj2 (children_of_absent_parent sample_db 7 0 100 sample_db_wf) H7)).
Defined.

Lemma update_absent_not_found_witness :
  ~ In 7 (keys (tasks sample_db))
  /\ crud.update_task 20 7 (TaskCreate.mk "Buy milk" None true) sample_db
     = Return None sample_db
  /\ routers.update_task 20 7 (TaskCreate.mk "Buy milk" None true) sample_db
     = Raise (HTTPException 404 "Task not found") sample_db.
Proof.
  assert (H7 : ~ In 7 (keys (tasks sample_db))) by (simpl; lia).
  split; [exact H7|].
  exact (proj1 (update_absent_not_found sample_db 20 7)
           (TaskCreate.mk "Buy milk" None true) H7).
Defined.

(** * Further properties of the repository and its handlers *)

(** ** Rows other than the one a statement names *)

Section Others.
Context {R : Type} `{Mapped R}.

Lemma in_updated_other (l : list R) (r x : R) :
  pk x <> pk r ->
  (In x (map (fun y => if pk y =? pk r then r else y) l) <-> In x l).
Proof.
  intros Hne. rewrite in_map_iff. split.
  - intros (y & Hy & Hin). destruct (Z.eqb_spec (pk y) (pk r)); subst; [easy|exact Hin].
  - intros Hin. exists x. split; [|exact Hin].
    destruct (Z.eqb_spec (pk x) (pk r)); [contradiction|reflexivity].
Qed.

Lemma keys_after_delete (r : R) (t : Table R) : ~ In (pk r) (keys (delete r t)).
Proof.
  unfold keys. intros Hin. apply in_map_iff in Hin as (x & Hk & Hx).
  apply delete_in in Hx as [_ Hne]. now apply Hne.
Qed.

Lemma within_window (skip limit : Z) (q : list R) (x : R) :
  In x (Query.all (Query.limit limit (Query.offset skip q))) -> In x q.
Proof.
  unfold Query.all, Query.limit, Query.offset. intros Hin.
  assert (Hs : forall n (l : list R), In x (skipn n l) -> In x l).
  { intros n l Hx. rewrite <- (firstn_skipn n l). apply in_or_app. now right. }
  assert (Hf : forall n (l : list R), In x (firstn n l) -> In x l).
  { intros n l Hx. rewrite <- (firstn_skipn n l). apply in_or_app. now left. }
  destruct (limit <? 0); eauto.
Qed.

Lemma firstn_plus (a b : nat) (l : list R) :
  firstn (a + b) l = (firstn a l ++ firstn b (skipn a l))%list.
Proof.
  revert l. induction a as [|a IH]; intros l; simpl; [reflexivity|].
  destruct l as [|x l]; simpl.
  - now rewrite firstn_nil.
  - now rewrite IH.
Qed.

(** Two consecutive pages make up the page that spans both. *)
Lemma pages_join (skip a b : nat) (q : list R) :
  Query.all (Query.limit (Z.of_nat (a + b)) (Query.offset (Z.of_nat skip) q))
  = (Query.all (Query.limit (Z.of_nat a) (Query.offset (Z.of_nat skip) q))
     ++ Query.all (Query.limit (Z.of_nat b) (Query.offset (Z.of_nat (skip + a)) q)))%list.
Proof.
  unfold Query.all, Query.limit, Query.offset.
  assert (E : forall n : nat, (Z.of_nat n <? 0) = false) by (intros; apply Z.ltb_ge; lia).
  rewrite !E, !Nat2Z.id, firstn_plus, skipn_skipn. do 3 f_equal. lia.
Qed.

Lemma page_length (skip limit : nat) (q : list R) :
  (List.length (Query.all (Query.limit (Z.of_nat limit) (Query.offset (Z.of_nat skip) q)))
   <= limit)%nat.
Proof.
  unfold Query.all, Query.limit, Query.offset.
  assert (E : (Z.of_nat limit <? 0) = false) by (apply Z.ltb_ge; lia).
  rewrite E, Nat2Z.id. apply firstn_le_length.
Qed.

End Others.

(** ** Deleting *)

(** X1: for every entity type, delete on an id with no matching row returns
    not-found and leaves the store as it was; the DELETE handler answers
    404. *)
Theorem delete_absent_not_found (db : DB) (id : Z) :
  (~ In id (keys (tasks db)) ->
     crud.delete_task id db = Return None db
     /\ routers.delete_task id db = Raise (HTTPException 404 "Task not found") db)
  /\ (~ In id (keys (departments db)) ->
     crud.delete_department id db = Return None db
     /\ org_routers.delete_department id db
        = Raise (HTTPException 404 "Department not found") db)
  /\ (~ In id (keys (roles db)) ->
     crud.delete_role id db = Return None db
     /\ org_routers.delete_role id db = Raise (HTTPException 404 "Role not found") db)
  /\ (~ In id (keys (functions db)) ->
     crud.delete_function id db = Return None db
     /\ org_routers.delete_function id db
        = Raise (HTTPException 404 "Function not found") db).
Proof.
  split; [|split; [|split]]; intros Hno.
  - destruct (get_task_cases db id) as [(old & _ & Hin & Hid)|[Hg _]].
    + exfalso. apply Hno. rewrite <- Hid. now apply in_map.
    + pose proof (proj2 (absent_task _ _ Hg)) as E. split; [exact E|].
      unfold routers.delete_task, response_model, bind. now rewrite E.
  - destruct (get_department_cases db id) as [(old & _ & Hin & Hid)|[Hg _]].
    + exfalso. apply Hno. rewrite <- Hid. now apply in_map.
    + pose proof (proj2 (absent_department _ _ Hg)) as E. split; [exact E|].
      unfold org_routers.delete_department, response_model, bind. now rewrite E.
  - destruct (get_role_cases db id) as [(old & _ & Hin & Hid)|[Hg _]].
    + exfalso. apply Hno. rewrite <- Hid. now apply in_map.
    + pose proof (proj2 (absent_role _ _ Hg)) as E. split; [exact E|].
      unfold org_routers.delete_role, response_model, bind. now rewrite E.
  - destruct (get_function_cases db id) as [(old & _ & Hin & Hid)|[Hg _]].
    + exfalso. apply Hno. rewrite <- Hid. now apply in_map.
    + pose proof (proj2 (absent_function _ _ Hg)) as E. split; [exact E|].
      unfold org_routers.delete_function, response_model, bind. now rewrite E.
Qed.

Lemma delete_absent_not_found_witness :
  ~ In 9 (keys (roles sample_db))
  /\ crud.delete_role 9 sample_db = Return None sample_db
  /\ org_routers.delete_role 9 sample_db
     = Raise (HTTPException 404 "Role not found") sample_db.
Proof.
  assert (H9 : ~ In 9 (keys (roles sample_db))) by (simpl; lia).
  split; [exact H9|].
  exact (proj1 (proj2 (proj2 (delete_absent_not_found sample_db 9))) H9).
Defined.

(** X2: deleting a stored task or function removes exactly that row: the
    call returns the entity as it was stored, the handler returns it with
    status 200, the row count drops by one, a later get on the id returns
    not-found, the rows with another id stay as they are, and the other
    tables are not touched. *)
Theorem delete_leaf_removes_one (db : DB) :
  wf db ->
  (forall t, In t (rows (tasks db)) ->
     exists db',
       crud.delete_task (Task.id t) db = Return (Some t) db'
       /\ routers.delete_task (Task.id t) db = Return t db'
       /\ (row_count db' + 1 = row_count db)%nat
       /\ crud.get_task (Task.id t) db' = Return None db'
       /\ (forall x, In x (rows (tasks db'))
                     <-> In x (rows (tasks db)) /\ Task.id x <> Task.id t)
       /\ departments db' = departments db /\ roles db' = roles db
       /\ functions db' = functions db)
  /\ (forall f, In f (rows (functions db)) ->
     exists db',
       crud.delete_function (Function.id f) db = Return (Some f) db'
       /\ org_routers.delete_function (Function.id f) db = Return f db'
       /\ (row_count db' + 1 = row_count db)%nat
       /\ crud.get_function (Function.id f) db' = Return None db'
       /\ (forall x, In x (rows (functions db'))
                     <-> In x (rows (functions db)) /\ Function.id x <> Function.id f)
       /\ tasks db' = tasks db /\ departments db' = departments db
       /\ roles db' = roles db).
Proof.
  intros (Ht & _ & _ & Hf & _).
  pose proof (table_ok_nodup _ Ht) as Nt. pose proof (table_ok_nodup _ Hf) as Nf.
  split.
  - intros t Hin.
    assert (Hg : crud.get_task (Task.id t) db = Return (Some t) db).
    { unfold crud.get_task, select, query_Task. f_equal.
      exact (by_key_present (rows (tasks db)) t Nt Hin). }
    pose proof (delete_task_returns _ _ _ Hg) as Hdel.
    eexists. split; [exact Hdel|]. split; [|split; [|split; [|split]]].
    + unfold routers.delete_task, response_model, bind. now rewrite Hdel.
    + unfold row_count; cbn [set_tasks tasks departments roles functions].
      pose proof (delete_one_length t (tasks db) Nt Hin). lia.
    + unfold crud.get_task, select, query_Task; cbn [set_tasks tasks]. f_equal.
      pose proof (by_key_absent (R := Task.t) (Task.id t) (rows (delete t (tasks db)))) as E.
      cbn [pk Task_mapped] in E. apply E.
      exact (keys_after_delete (R := Task.t) t (tasks db)).
    + intros x. cbn [set_tasks tasks].
      exact (delete_in (R := Task.t) t (tasks db) x).
    + now cbn.
  - intros f Hin.
    assert (Hg : crud.get_function (Function.id f) db = Return (Some f) db).
    { unfold crud.get_function, select, query_Function. f_equal.
      exact (by_key_present (rows (functions db)) f Nf Hin). }
    pose proof (delete_function_returns _ _ _ Hg) as Hdel.
    eexists. split; [exact Hdel|]. split; [|split; [|split; [|split]]].
    + unfold org_routers.delete_function, response_model, bind. now rewrite Hdel.
    + unfold row_count; cbn [set_functions tasks departments roles functions].
      pose proof (delete_one_length f (functions db) Nf Hin). lia.
    + unfold crud.get_function, select, query_Function; cbn [set_functions functions].
      f_equal.
      pose proof (by_key_absent (R := Function.t) (Function.id f)
                    (rows (delete f (functions db)))) as E.
      cbn [pk Function_mapped] in E. apply E.
      exact (keys_after_delete (R := Function.t) f (functions db)).
    + intros x. cbn [set_functions functions].
      exact (delete_in (R := Function.t) f (functions db) x).
    + now cbn.
Qed.

Lemma delete_leaf_removes_one_witness :
  wf sample_db
  /\ In (Function.mk 3 "Design" None 2 17 None) (rows (functions sample_db))
  /\ exists db',
       crud.delete_function 3 sample_db
       = Return (Some (Function.mk 3 "Design" None 2 17 None)) db'
       /\ (row_count db' + 1 = row_count sample_db)%nat
       /\ crud.get_function 3 db' = Return None db'.
Proof.
  assert (Hin : In (Function.mk 3 "Design" None 2 17 None) (rows (functions sample_db)))
    by (simpl; tauto).
  split; [exact sample_db_wf|]. split; [exact Hin|].
  destruct (proj2 (delete_leaf_removes_one sample_db sample_db_wf) _ Hin)
    as (db' & Hdel & _ & Hcount & Hget & _).
  exists db'. split; [exact Hdel|]. split; [exact Hcount|exact Hget].
Defined.

(** X3: deleting a stored role deletes the role and the functions under it
    and nothing else: the call never raises, the row count drops by one plus
    the number of those functions, a later get on the role or on one of
    those functions returns not-found, the other roles and the functions of
    other roles stay, and tasks and departments are not touched. *)
Theorem delete_role_cascades (db : DB) (r : Role.t) :
  wf db -> In r (rows (roles db)) ->
  exists db',
    crud.delete_role (Role.id r) db = Return (Some r) db'
    /\ org_routers.delete_role (Role.id r) db = Return r db'
    /\ (row_count db' + (List.length (Role_functions r db) + 1) = row_count db)%nat
    /\ crud.get_role (Role.id r) db' = Return None db'
    /\ (forall f, In f (Role_functions r db) ->
                  crud.get_function (Function.id f) db' = Return None db')
    /\ (forall x, In x (rows (roles db'))
                  <-> In x (rows (roles db)) /\ Role.id x <> Role.id r)
    /\ (forall f, In f (rows (functions db'))
                  <-> In f (rows (functions db)) /\ Function.role_id f <> Role.id r)
    /\ tasks db' = tasks db /\ departments db' = departments db.
Proof.
  intros (_ & _ & Hr & Hf & _) Hin.
  pose proof (table_ok_nodup _ Hr) as Nr. pose proof (table_ok_nodup _ Hf) as Nf.
  assert (Hg : crud.get_role (Role.id r) db = Return (Some r) db).
  { unfold crud.get_role, select, query_Role. f_equal.
    exact (by_key_present (rows (roles db)) r Nr Hin). }
  pose proof (delete_role_returns _ _ _ Hg) as Hdel.
  assert (Hrows : rows (delete_all (Role_functions r db) (functions db))
                  = filter (fun f => negb (Function.role_id f =? Role.id r))
                      (rows (functions db))).
  { unfold Role_functions, Query.all, Query.filter, query_Function.
    now rewrite delete_all_picked. }
  eexists. split; [exact Hdel|]. split; [|split; [|split; [|split; [|split; [|split]]]]].
  - unfold org_routers.delete_role, response_model, bind. now rewrite Hdel.
  - unfold row_count; cbn [tasks departments roles functions].
    pose proof (delete_one_length r (roles db) Nr Hin) as Cr.
    rewrite Hrows.
    pose proof (filter_split_length (fun f => Function.role_id f =? Role.id r)
                  (rows (functions db))) as Cf.
    unfold Role_functions, Query.all, Query.filter, query_Function. lia.
  - unfold crud.get_role, select, query_Role; cbn [roles]. f_equal.
    pose proof (by_key_absent (R := Role.t) (Role.id r) (rows (delete r (roles db)))) as E.
    cbn [pk Role_mapped] in E. apply E.
    exact (keys_after_delete (R := Role.t) r (roles db)).
  - intros f Hf'. unfold crud.get_function, select, query_Function; cbn [functions].
    f_equal.
    pose proof (by_key_absent (R := Function.t) (Function.id f)
                  (rows (delete_all (Role_functions r db) (functions db)))) as E.
    cbn [pk Function_mapped] in E. apply E. intros Hk.
    apply in_map_iff in Hk as (x & Hk & Hx).
    apply delete_all_in in Hx as [_ Hno]. apply Hno.
    cbn [pk Function_mapped]. rewrite Hk. now apply in_map.
  - intros x. cbn [roles]. exact (delete_in (R := Role.t) r (roles db) x).
  - intros f. cbn [functions]. rewrite Hrows, filter_In, negb_true_iff, Z.eqb_neq. tauto.
  - now cbn.
Qed.

Lemma delete_role_cascades_witness :
  wf sample_db
  /\ In (Role.mk 1 "Backend" None 1 12 None) (rows (roles sample_db))
  /\ exists db',
       crud.delete_role 1 sample_db = Return (Some (Role.mk 1 "Backend" None 1 12 None)) db'
       /\ (row_count db' + (2 + 1) = row_count sample_db)%nat
       /\ crud.get_role 1 db' = Return None db'.
Proof.
  assert (Hin : In (Role.mk 1 "Backend" None 1 12 None) (rows (roles sample_db)))
    by (simpl; tauto).
  split; [exact sample_db_wf|]. split; [exact Hin|].
  destruct (delete_role_cascades sample_db _ sample_db_wf Hin)
    as (db' & Hdel & _ & Hcount & Hget & _).
  exists db'. split; [exact Hdel|]. split; [exact Hcount|exact Hget].
Defined.

(** X4: deleting a stored department spares everything outside it: the
    handler returns the department as it was stored, tasks are not touched,
    the other departments stay, a role stays exactly when it belongs to
    another department, and a function stays exactly when its role is not a
    role of the deleted department. *)
Theorem delete_department_spares_others (db : DB) (d : Department.t) :
  wf db -> In d (rows (departments db)) ->
  exists db',
    crud.delete_department (Department.id d) db = Return (Some d) db'
    /\ org_routers.delete_department (Department.id d) db = Return d db'
    /\ tasks db' = tasks db
    /\ (forall x, In x (rows (departments db'))
                  <-> In x (rows (departments db)) /\ Department.id x <> Department.id d)
    /\ (forall r, In r (rows (roles db'))
                  <-> In r (rows (roles db)) /\ Role.department_id r <> Department.id d)
    /\ (forall f, In f (rows (functions db'))
                  <-> In f (rows (functions db))
                      /\ ~ exists r, In r (rows (roles db))
                                     /\ Role.department_id r = Department.id d
                                     /\ Function.role_id f = Role.id r).
Proof.
  intros (_ & Hd & Hr & Hf & _) Hin.
  pose proof (table_ok_nodup _ Hd) as Nd.
  pose proof (table_ok_nodup _ Hr) as Nr.
  pose proof (table_ok_nodup _ Hf) as Nf.
  assert (Hg : crud.get_department (Department.id d) db = Return (Some d) db).
  { unfold crud.get_department, select, query_Department. f_equal.
    exact (by_key_present (rows (departments db)) d Nd Hin). }
  pose proof (delete_department_returns _ _ _ Hg) as Hdel.
  eexists. split; [exact Hdel|]. split.
  { unfold org_routers.delete_department, response_model, bind. now rewrite Hdel. }
  cbn [tasks departments roles functions].
  split; [reflexivity|]. split; [|split].
  - intros x. exact (delete_in (R := Department.t) d (departments db) x).
  - intros r. unfold Department_roles, Query.all, Query.filter, query_Role.
    rewrite delete_all_picked by exact Nr.
    rewrite filter_In, negb_true_iff, Z.eqb_neq. tauto.
  - intros f. rewrite delete_functions_under_roles by exact Nf.
    rewrite filter_In, negb_true_iff. split; intros [Hf' Hno]; split; try exact Hf'.
    + intros (r & Hr' & Hrd & Hfr).
      assert (Ht : existsb (fun r => Function.role_id f =? Role.id r)
                     (Department_roles d db) = true).
      { apply existsb_exists. exists r. split; [|now apply Z.eqb_eq].
        unfold Department_roles, Query.all, Query.filter, query_Role.
        apply filter_In. split; [exact Hr'|now apply Z.eqb_eq]. }
      congruence.
    + destruct (existsb _ _) eqn:E; [|reflexivity]. exfalso. apply Hno.
      apply existsb_exists in E as (r & Hr' & Hfr).
      unfold Department_roles, Query.all, Query.filter, query_Role in Hr'.
      apply filter_In in Hr' as [Hr' Hrd].
      exists r. split; [exact Hr'|]. split; [now apply Z.eqb_eq|now apply Z.eqb_eq].
Qed.

Lemma delete_department_spares_others_witness :
  wf sample_db
  /\ In (Department.mk 1 "Engineering" None 10 None) (rows (departments sample_db))
  /\ exists db',
       crud.delete_department 1 sample_db
       = Return (Some (Department.mk 1 "Engineering" None 10 None)) db'
       /\ tasks db' = tasks sample_db
       /\ In (Role.mk 3 "Account" None 2 14 None) (rows (roles db')).
Proof.
  assert (Hin : In (Department.mk 1 "Engineering" None 10 None)
                  (rows (departments sample_db))) by (simpl; tauto).
  split; [exact sample_db_wf|]. split; [exact Hin|].
  destruct (delete_department_spares_others sample_db _ sample_db_wf Hin)
    as (db' & Hdel & _ & Htasks & _ & Hroles & _).
  exists db'. split; [exact Hdel|]. split; [exact Htasks|].
  apply Hroles. simpl. split; [tauto|lia].
Defined.

(** X5: after a delete, whatever the store was, the id is gone: get on it
    returns not-found and a second delete returns not-found and changes
    nothing. *)
Theorem delete_twice (db : DB) (id : Z) :
  (crud.get_task id (final (crud.delete_task id db))
   = Return None (final (crud.delete_task id db))
   /\ crud.delete_task id (final (crud.delete_task id db))
      = Return None (final (crud.delete_task id db)))
  /\ (crud.get_department id (final (crud.delete_department id db))
      = Return None (final (crud.delete_department id db))
      /\ crud.delete_department id (final (crud.delete_department id db))
         = Return None (final (crud.delete_department id db)))
  /\ (crud.get_role id (final (crud.delete_role id db))
      = Return None (final (crud.delete_role id db))
      /\ crud.delete_role id (final (crud.delete_role id db))
         = Return None (final (crud.delete_role id db)))
  /\ (crud.get_function id (final (crud.delete_function id db))
      = Return None (final (crud.delete_function id db))
      /\ crud.delete_function id (final (crud.delete_function id db))
         = Return None (final (crud.delete_function id db))).
Proof.
  split; [|split; [|split]].
  - assert (Hg : crud.get_task id (final (crud.delete_task id db))
                 = Return None (final (crud.delete_task id db))).
    { destruct (get_task_cases db id) as [(old & Hg & _ & Hid)|[Hg _]].
      - rewrite (delete_task_returns _ _ _ Hg). cbn [final].
        unfold crud.get_task, select, query_Task; cbn [set_tasks tasks]. f_equal.
        pose proof (by_key_absent (R := Task.t) id (rows (delete old (tasks db)))) as E.
        cbn [pk Task_mapped] in E. apply E. rewrite <- Hid.
        exact (keys_after_delete (R := Task.t) old (tasks db)).
      - rewrite (proj2 (absent_task _ _ Hg)). exact Hg. }
    split; [exact Hg|]. exact (proj2 (absent_task _ _ Hg)).
  - assert (Hg : crud.get_department id (final (crud.delete_department id db))
                 = Return None (final (crud.delete_department id db))).
    { destruct (get_department_cases db id) as [(old & Hg & _ & Hid)|[Hg _]].
      - rewrite (delete_department_returns _ _ _ Hg). cbn [final].
        unfold crud.get_department, select, query_Department; cbn [departments]. f_equal.
        pose proof (by_key_absent (R := Department.t) id
                      (rows (delete old (departments db)))) as E.
        cbn [pk Department_mapped] in E. apply E. rewrite <- Hid.
        exact (keys_after_delete (R := Department.t) old (departments db)).
      - rewrite (proj2 (absent_department _ _ Hg)). exact Hg. }
    split; [exact Hg|]. exact (proj2 (absent_department _ _ Hg)).
  - assert (Hg : crud.get_role id (final (crud.delete_role id db))
                 = Return None (final (crud.delete_role id db))).
    { destruct (get_role_cases db id) as [(old & Hg & _ & Hid)|[Hg _]].
      - rewrite (delete_role_returns _ _ _ Hg). cbn [final].
        unfold crud.get_role, select, query_Role; cbn [roles]. f_equal.
        pose proof (by_key_absent (R := Role.t) id (rows (delete old (roles db)))) as E.
        cbn [pk Role_mapped] in E. apply E. rewrite <- Hid.
        exact (keys_after_delete (R := Role.t) old (roles db)).
      - rewrite (proj2 (absent_role _ _ Hg)). exact Hg. }
    split; [exact Hg|]. exact (proj2 (absent_role _ _ Hg)).
  - assert (Hg : crud.get_function id (final (crud.delete_function id db))
                 = Return None (final (crud.delete_function id db))).
    { destruct (get_function_cases db id) as [(old & Hg & _ & Hid)|[Hg _]].
      - rewrite (delete_function_returns _ _ _ Hg). cbn [final].
        unfold crud.get_function, select, query_Function; cbn [set_functions functions].
        f_equal.
        pose proof (by_key_absent (R := Function.t) id
                      (rows (delete old (functions db)))) as E.
        cbn [pk Function_mapped] in E. apply E. rewrite <- Hid.
        exact (keys_after_delete (R := Function.t) old (functions db)).
      - rewrite (proj2 (absent_function _ _ Hg)). exact Hg. }
    split; [exact Hg|]. exact (proj2 (absent_function _ _ Hg)).
Qed.

(** ** Updating *)

(** What a successful update leaves: the entity it returns is stored under
    the id and carries the payload. *)
Lemma update_task_stored (db : DB) (now id : Z) (task : TaskCreate.t)
    (new : Task.t) (db' : DB) :
  crud.update_task now id task db = Return (Some new) db' ->
  crud.get_task id db' = Return (Some new) db' /\ Task_fields new = task.
Proof.
  intros Hu. destruct (get_task_cases db id) as [(old & Hg & _)|[Hg _]].
  - rewrite (update_task_returns _ _ _ _ _ Hg) in Hu.
    pose proof (Task_clean_iff task old) as Hc.
    destruct (Task_clean _ _); injection Hu as <- <-.
    + split; [exact Hg|now apply Hc].
    + split; [now apply stored_after_update_task with (old := old)|now destruct task].
  - rewrite (proj1 (absent_task _ _ Hg)) in Hu. discriminate.
Qed.

Lemma update_department_stored (db : DB) (now id : Z) (department : DepartmentCreate.t)
    (new : Department.t) (db' : DB) :
  crud.update_department now id department db = Return (Some new) db' ->
  crud.get_department id db' = Return (Some new) db' /\ Department_fields new = department.
Proof.
  intros Hu. destruct (get_department_cases db id) as [(old & Hg & _)|[Hg _]].
  - rewrite (update_department_returns _ _ _ _ _ Hg) in Hu.
    pose proof (Department_clean_iff department old) as Hc.
    destruct (Department_clean _ _); injection Hu as <- <-.
    + split; [exact Hg|now apply Hc].
    + split; [now apply stored_after_update_department with (old := old)
             |now destruct department].
  - rewrite (proj1 (absent_department _ _ Hg)) in Hu. discriminate.
Qed.

Lemma update_role_stored (db : DB) (now id : Z) (role : RoleCreate.t)
    (new : Role.t) (db' : DB) :
  crud.update_role now id role db = Return (Some new) db' ->
  crud.get_role id db' = Return (Some new) db' /\ Role_fields new = role.
Proof.
  intros Hu. destruct (get_role_cases db id) as [(old & Hg & _)|[Hg _]].
  - rewrite (update_role_returns _ _ _ _ _ Hg) in Hu.
    pose proof (Role_clean_iff role old) as Hc.
    destruct (Role_clean _ _); [|destruct (_ || _); [|discriminate]];
      injection Hu as <- <-.
    + split; [exact Hg|now apply Hc].
    + split; [now apply stored_after_update_role with (old := old)|now destruct role].
  - rewrite (proj1 (absent_role _ _ Hg)) in Hu. discriminate.
Qed.

Lemma update_function_stored (db : DB) (now id : Z) (function : FunctionCreate.t)
    (new : Function.t) (db' : DB) :
  crud.update_function now id function db = Return (Some new) db' ->
  crud.get_function id db' = Return (Some new) db' /\ Function_fields new = function.
Proof.
  intros Hu. destruct (get_function_cases db id) as [(old & Hg & _)|[Hg _]].
  - rewrite (update_function_returns _ _ _ _ _ Hg) in Hu.
    pose proof (Function_clean_iff function old) as Hc.
    destruct (Function_clean _ _); [|destruct (_ || _); [|discriminate]];
      injection Hu as <- <-.
    + split; [exact Hg|now apply Hc].
    + split; [now apply stored_after_update_function with (old := old)
             |now destruct function].
  - rewrite (proj1 (absent_function _ _ Hg)) in Hu. discriminate.
Qed.

(** X6: update is a full replace: whenever update returns an entity, every
    base field of that entity is the payload's, an absent description
    included; the PUT handler returns the same entity and store. *)
Theorem update_is_full_replace (db : DB) (now id : Z) :
  (forall task new db',
      crud.update_task now id task db = Return (Some new) db' ->
      Task_fields new = task /\ routers.update_task now id task db = Return new db')
  /\ (forall department new db',
      crud.update_department now id department db = Return (Some new) db' ->
      Department_fields new = department
      /\ org_routers.update_department now id department db = Return new db')
  /\ (forall role new db',
      crud.update_role now id role db = Return (Some new) db' ->
      Role_fields new = role /\ org_routers.update_role now id role db = Return new db')
  /\ (forall function new db',
      crud.update_function now id function db = Return (Some new) db' ->
      Function_fields new = function
      /\ org_routers.update_function now id function db = Return new db').
Proof.
  split; [|split; [|split]].
  - intros task new db' Hu. split; [now apply (update_task_stored _ _ _ _ _ _ Hu)|].
    unfold routers.update_task, response_model, bind. now rewrite Hu.
  - intros department new db' Hu.
    split; [now apply (update_department_stored _ _ _ _ _ _ Hu)|].
    unfold org_routers.update_department, response_model, bind. now rewrite Hu.
  - intros role new db' Hu. split; [now apply (update_role_stored _ _ _ _ _ _ Hu)|].
    unfold org_routers.update_role, response_model, bind. now rewrite Hu.
  - intros function new db' Hu.
    split; [now apply (update_function_stored _ _ _ _ _ _ Hu)|].
    unfold org_routers.update_function, response_model, bind. now rewrite Hu.
Qed.

Lemma update_is_full_replace_witness :
  exists db',
    crud.update_department 50 2 (DepartmentCreate.mk "Retail" None) sample_db
    = Return (Some (Department.mk 2 "Retail" None 11 (Some 50))) db'
    /\ Department_fields (Department.mk 2 "Retail" None 11 (Some 50))
       = DepartmentCreate.mk "Retail" None
    /\ org_routers.update_department 50 2 (DepartmentCreate.mk "Retail" None) sample_db
       = Return (Department.mk 2 "Retail" None 11 (Some 50)) db'.
Proof.
  exists (final (crud.update_department 50 2 (DepartmentCreate.mk "Retail" None) sample_db)).
  split; [reflexivity|].
  exact (proj1 (proj2 (update_is_full_replace sample_db 50 2))
           (DepartmentCreate.mk "Retail" None) _ _ eq_refl).
Defined.

(** X7: repeating an update changes nothing: when update returns an entity,
    the same payload sent again for the same id, at any later time, returns
    that entity and leaves the store, [updated_at] included, as it is. *)
Theorem update_twice (db : DB) (now later id : Z) :
  (forall task new db',
      crud.update_task now id task db = Return (Some new) db' ->
      crud.update_task later id task db' = Return (Some new) db')
  /\ (forall department new db',
      crud.update_department now id department db = Return (Some new) db' ->
      crud.update_department later id department db' = Return (Some new) db')
  /\ (forall role new db',
      crud.update_role now id role db = Return (Some new) db' ->
      crud.update_role later id role db' = Return (Some new) db')
  /\ (forall function new db',
      crud.update_function now id function db = Return (Some new) db' ->
      crud.update_function later id function db' = Return (Some new) db').
Proof.
  split; [|split; [|split]].
  - intros task new db' Hu. destruct (update_task_stored _ _ _ _ _ _ Hu) as [Hg Hf].
    rewrite (update_task_returns _ _ _ _ _ Hg).
    now rewrite (proj2 (Task_clean_iff task new) Hf).
  - intros department new db' Hu.
    destruct (update_department_stored _ _ _ _ _ _ Hu) as [Hg Hf].
    rewrite (update_department_returns _ _ _ _ _ Hg).
    now rewrite (proj2 (Department_clean_iff department new) Hf).
  - intros role new db' Hu. destruct (update_role_stored _ _ _ _ _ _ Hu) as [Hg Hf].
    rewrite (update_role_returns _ _ _ _ _ Hg).
    now rewrite (proj2 (Role_clean_iff role new) Hf).
  - intros function new db' Hu.
    destruct (update_function_stored _ _ _ _ _ _ Hu) as [Hg Hf].
    rewrite (update_function_returns _ _ _ _ _ Hg).
    now rewrite (proj2 (Function_clean_iff function new) Hf).
Qed.

Lemma update_twice_witness :
  exists db',
    crud.update_task 20 1 (TaskCreate.mk "Buy milk" None true) sample_db
    = Return (Some (Task.mk 1 "Buy milk" None true 10 (Some 20))) db'
    /\ crud.update_task 30 1 (TaskCreate.mk "Buy milk" None true) db'
       = Return (Some (Task.mk 1 "Buy milk" None true 10 (Some 20))) db'.
Proof.
  exists (final (crud.update_task 20 1 (TaskCreate.mk "Buy milk" None true) sample_db)).
  split; [reflexivity|].
  exact (proj1 (update_twice sample_db 20 30 1)
           (TaskCreate.mk "Buy milk" None true) _ _ eq_refl).
Defined.

(** X8: an update touches one row of one table, whatever its outcome: the
    other three tables are as before, the key column of the table is as
    before, and every row with another id is as before. *)
Theorem update_touches_one_row (db : DB) (now id : Z) :
  (forall task,
      departments (final (crud.update_task now id task db)) = departments db
      /\ roles (final (crud.update_task now id task db)) = roles db
      /\ functions (final (crud.update_task now id task db)) = functions db
      /\ keys (tasks (final (crud.update_task now id task db))) = keys (tasks db)
      /\ forall x, Task.id x <> id ->
           (In x (rows (tasks (final (crud.update_task now id task db))))
            <-> In x (rows (tasks db))))
  /\ (forall department,
      tasks (final (crud.update_department now id department db)) = tasks db
      /\ roles (final (crud.update_department now id department db)) = roles db
      /\ functions (final (crud.update_department now id department db)) = functions db
      /\ keys (departments (final (crud.update_department now id department db)))
         = keys (departments db)
      /\ forall x, Department.id x <> id ->
           (In x (rows (departments (final (crud.update_department now id department db))))
            <-> In x (rows (departments db))))
  /\ (forall role,
      tasks (final (crud.update_role now id role db)) = tasks db
      /\ departments (final (crud.update_role now id role db)) = departments db
      /\ functions (final (crud.update_role now id role db)) = functions db
      /\ keys (roles (final (crud.update_role now id role db))) = keys (roles db)
      /\ forall x, Role.id x <> id ->
           (In x (rows (roles (final (crud.update_role now id role db))))
            <-> In x (rows (roles db))))
  /\ (forall function,
      tasks (final (crud.update_function now id function db)) = tasks db
      /\ departments (final (crud.update_function now id function db)) = departments db
      /\ roles (final (crud.update_function now id function db)) = roles db
      /\ keys (functions (final (crud.update_function now id function db)))
         = keys (functions db)
      /\ forall x, Function.id x <> id ->
           (In x (rows (functions (final (crud.update_function now id function db))))
            <-> In x (rows (functions db)))).
Proof.
  split; [|split; [|split]].
  - intros task. destruct (get_task_cases db id) as [(old & Hg & _ & Hid)|[Hg _]].
    + rewrite (update_task_returns _ _ _ _ _ Hg).
      destruct (Task_clean _ _); cbn [final set_tasks tasks departments roles functions];
        repeat split; auto.
      * apply keys_update.
      * apply (in_updated_other (R := Task.t)). cbn. congruence.
      * apply (in_updated_other (R := Task.t)). cbn. congruence.
    + rewrite (proj1 (absent_task _ _ Hg)). repeat split; auto.
  - intros department.
    destruct (get_department_cases db id) as [(old & Hg & _ & Hid)|[Hg _]].
    + rewrite (update_department_returns _ _ _ _ _ Hg).
      destruct (Department_clean _ _);
        cbn [final set_departments tasks departments roles functions];
        repeat split; auto.
      * apply keys_update.
      * apply (in_updated_other (R := Department.t)). cbn. congruence.
      * apply (in_updated_other (R := Department.t)). cbn. congruence.
    + rewrite (proj1 (absent_department _ _ Hg)). repeat split; auto.
  - intros role. destruct (get_role_cases db id) as [(old & Hg & _ & Hid)|[Hg _]].
    + rewrite (update_role_returns _ _ _ _ _ Hg).
      destruct (Role_clean _ _); [|destruct (_ || _)];
        cbn [final set_roles tasks departments roles functions];
        repeat split; auto.
      * apply keys_update.
      * apply (in_updated_other (R := Role.t)). cbn. congruence.
      * apply (in_updated_other (R := Role.t)). cbn. congruence.
    + rewrite (proj1 (absent_role _ _ Hg)). repeat split; auto.
  - intros function.
    destruct (get_function_cases db id) as [(old & Hg & _ & Hid)|[Hg _]].
    + rewrite (update_function_returns _ _ _ _ _ Hg).
      destruct (Function_clean _ _); [|destruct (_ || _)];
        cbn [final set_functions tasks departments roles functions];
        repeat split; auto.
      * apply keys_update.
      * apply (in_updated_other (R := Function.t)). cbn. congruence.
      * apply (in_updated_other (R := Function.t)). cbn. congruence.
    + rewrite (proj1 (absent_function _ _ Hg)). repeat split; auto.
Qed.

(** ** Foreign keys *)



(** ** Listing children and paging *)

(** X11: the child listings return only children of the given parent, for
    every skip and limit; and with skip 0 and a limit that covers them they
    return exactly the children that the nested read of the parent embeds,
    in the same order. *)
Theorem children_listing (db : DB) (id : Z) :
  (forall skip limit, exists rs,
      crud.get_roles_by_department id skip limit db = Return rs db
      /\ org_routers.read_roles_by_department id skip limit db = Return rs db
      /\ forall r, In r rs -> In r (rows (roles db)) /\ Role.department_id r = id)
  /\ (forall skip limit, exists fs,
      crud.get_functions_by_role id skip limit db = Return fs db
      /\ org_routers.read_functions_by_role id skip limit db = Return fs db
      /\ forall f, In f fs -> In f (rows (functions db)) /\ Function.role_id f = id)
  /\ (forall resp (limit : nat),
      org_routers.read_department id db = Return resp db ->
      (List.length (DepartmentWithRoles.roles resp) <= limit)%nat ->
      crud.get_roles_by_department id 0 (Z.of_nat limit) db
      = Return (DepartmentWithRoles.roles resp) db)
  /\ (forall resp (limit : nat),
      org_routers.read_role id db = Return resp db ->
      (List.length (RoleWithFunctions.functions resp) <= limit)%nat ->
      crud.get_functions_by_role id 0 (Z.of_nat limit) db
      = Return (RoleWithFunctions.functions resp) db).
Proof.
  split; [|split; [|split]].
  - intros skip limit. eexists. split; [reflexivity|]. split; [reflexivity|].
    intros r Hr. apply within_window in Hr. unfold Query.filter, query_Role in Hr.
    apply filter_In in Hr as [Hr Hd]. now apply Z.eqb_eq in Hd.
  - intros skip limit. eexists. split; [reflexivity|]. split; [reflexivity|].
    intros f Hf. apply within_window in Hf. unfold Query.filter, query_Function in Hf.
    apply filter_In in Hf as [Hf Hr]. now apply Z.eqb_eq in Hr.
  - intros resp limit Hread Hlen.
    destruct (get_department_cases db id) as [(old & Hg & _ & Hid)|[Hg _]].
    + unfold org_routers.read_department, response_model, bind in Hread.
      rewrite Hg in Hread. unfold ret, select in Hread. injection Hread as <-.
      unfold DepartmentWithRoles.from_orm, Department_roles in *.
      cbn [DepartmentWithRoles.roles] in *. rewrite Hid in *.
      unfold crud.get_roles_by_department, select, Query.all, Query.limit, Query.offset
        in *.
      assert (E : (Z.of_nat limit <? 0) = false) by (apply Z.ltb_ge; lia).
      rewrite E, Nat2Z.id. cbn [Z.to_nat skipn]. now rewrite firstn_all2.
    + unfold org_routers.read_department, response_model, bind in Hread.
      rewrite Hg in Hread. discriminate.
  - intros resp limit Hread Hlen.
    destruct (get_role_cases db id) as [(old & Hg & _ & Hid)|[Hg _]].
    + unfold org_routers.read_role, response_model, bind in Hread.
      rewrite Hg in Hread. unfold ret, select in Hread. injection Hread as <-.
      unfold RoleWithFunctions.from_orm, Role_functions in *.
      cbn [RoleWithFunctions.functions] in *. rewrite Hid in *.
      unfold crud.get_functions_by_role, select, Query.all, Query.limit, Query.offset
        in *.
      assert (E : (Z.of_nat limit <? 0) = false) by (apply Z.ltb_ge; lia).
      rewrite E, Nat2Z.id. cbn [Z.to_nat skipn]. now rewrite firstn_all2.
    + unfold org_routers.read_role, response_model, bind in Hread.
      rewrite Hg in Hread. discriminate.
Qed.

Lemma children_listing_witness :
  org_routers.read_department 1 sample_db
  = Return (DepartmentWithRoles.mk (Department.mk 1 "Engineering" None 10 None)
              [Role.mk 1 "Backend" None 1 12 None; Role.mk 2 "Frontend" None 1 13 None])
      sample_db
  /\ crud.get_roles_by_department 1 0 100 sample_db
     = Return [Role.mk 1 "Backend" None 1 12 None; Role.mk 2 "Frontend" None 1 13 None]
         sample_db.
Proof.
  split; [reflexivity|].
  apply (proj1 (proj2 (proj2 (children_listing sample_db 1)))
           (DepartmentWithRoles.mk (Department.mk 1 "Engineering" None 10 None)
              [Role.mk 1 "Backend" None 1 12 None; Role.mk 2 "Frontend" None 1 13 None])
           100%nat).
  - reflexivity.
  - simpl. lia.
Defined.

(** X12: consecutive pages tile the listing: for every listing, the page at
    [skip] of [a] entries followed by the page at [skip + a] of [b] entries
    is the page at [skip] of [a + b] entries, and a page never has more
    entries than its limit. *)
Theorem pages_tile (db : DB) (skip a b : nat) :
  (exists p q,
      crud.get_tasks (Z.of_nat skip) (Z.of_nat a) db = Return p db
      /\ crud.get_tasks (Z.of_nat (skip + a)) (Z.of_nat b) db = Return q db
      /\ crud.get_tasks (Z.of_nat skip) (Z.of_nat (a + b)) db = Return (p ++ q)%list db
      /\ (List.length p <= a)%nat)
  /\ (exists p q,
      crud.get_departments (Z.of_nat skip) (Z.of_nat a) db = Return p db
      /\ crud.get_departments (Z.of_nat (skip + a)) (Z.of_nat b) db = Return q db
      /\ crud.get_departments (Z.of_nat skip) (Z.of_nat (a + b)) db
         = Return (p ++ q)%list db
      /\ (List.length p <= a)%nat)
  /\ (exists p q,
      crud.get_roles (Z.of_nat skip) (Z.of_nat a) db = Return p db
      /\ crud.get_roles (Z.of_nat (skip + a)) (Z.of_nat b) db = Return q db
      /\ crud.get_roles (Z.of_nat skip) (Z.of_nat (a + b)) db = Return (p ++ q)%list db
      /\ (List.length p <= a)%nat)
  /\ (exists p q,
      crud.get_functions (Z.of_nat skip) (Z.of_nat a) db = Return p db
      /\ crud.get_functions (Z.of_nat (skip + a)) (Z.of_nat b) db = Return q db
      /\ crud.get_functions (Z.of_nat skip) (Z.of_nat (a + b)) db
         = Return (p ++ q)%list db
      /\ (List.length p <= a)%nat)
  /\ (forall department_id, exists p q,
      crud.get_roles_by_department department_id (Z.of_nat skip) (Z.of_nat a) db
      = Return p db
      /\ crud.get_roles_by_department department_id (Z.of_nat (skip + a)) (Z.of_nat b) db
         = Return q db
      /\ crud.get_roles_by_department department_id (Z.of_nat skip) (Z.of_nat (a + b)) db
         = Return (p ++ q)%list db
      /\ (List.length p <= a)%nat)
  /\ (forall role_id, exists p q,
      crud.get_functions_by_role role_id (Z.of_nat skip) (Z.of_nat a) db = Return p db
      /\ crud.get_functions_by_role role_id (Z.of_nat (skip + a)) (Z.of_nat b) db
         = Return q db
      /\ crud.get_functions_by_role role_id (Z.of_nat skip) (Z.of_nat (a + b)) db
         = Return (p ++ q)%list db
      /\ (List.length p <= a)%nat).
Proof.
  unfold crud.get_tasks, crud.get_departments, crud.get_roles, crud.get_functions,
    crud.get_roles_by_department, crud.get_functions_by_role, select.
  repeat split; intros; do 2 eexists;
    (split; [reflexivity|]; split; [reflexivity|]; split;
     [f_equal; apply pages_join|apply page_length]).
Qed.

(** ** Creating and reading through the handlers *)

Lemma by_key_kept {R : Type} `{Mapped R} (mk : Z -> R) (t : Table R) (x : R) :
  table_ok t -> pk (mk (next_id t)) = next_id t -> In x (rows t) ->
  Query.first (Query.filter (fun y => pk y =? pk x) (rows (snd (insert mk t)))) = Some x.
Proof.
  intros Hok Hk Hx. apply by_key_present.
  - apply (table_ok_nodup (snd (insert mk t))). now apply table_ok_insert.
  - unfold insert; simpl. apply in_or_app. now left.
Qed.

(** X13: a create adds one row and disturbs nothing, for every entity
    type: POST returns the new entity, a read of its id in the resulting
    store returns the same entity (GET for a task or function, the
    repository get for a department or role), the row count grows by one,
    the other tables are as before, and get on every entity stored before
    still returns that entity. *)
Theorem create_adds_one_row (db : DB) (now : Z) :
  wf db ->
  (forall task, exists t db',
      routers.create_task now task db = Return t db'
      /\ routers.read_task (Task.id t) db' = Return t db'
      /\ row_count db' = (row_count db + 1)%nat
      /\ departments db' = departments db /\ roles db' = roles db
      /\ functions db' = functions db
      /\ forall x, In x (rows (tasks db)) ->
                   crud.get_task (Task.id x) db' = Return (Some x) db')
  /\ (forall department, exists d db',
      org_routers.create_department now department db = Return d db'
      /\ crud.get_department (Department.id d) db' = Return (Some d) db'
      /\ row_count db' = (row_count db + 1)%nat
      /\ tasks db' = tasks db /\ roles db' = roles db
      /\ functions db' = functions db
      /\ forall x, In x (rows (departments db)) ->
                   crud.get_department (Department.id x) db' = Return (Some x) db')
  /\ (forall role, In (RoleCreate.department_id role) (keys (departments db)) ->
      exists r db',
        org_routers.create_role now role db = Return r db'
        /\ crud.get_role (Role.id r) db' = Return (Some r) db'
        /\ row_count db' = (row_count db + 1)%nat
        /\ tasks db' = tasks db /\ departments db' = departments db
        /\ functions db' = functions db
        /\ forall x, In x (rows (roles db)) ->
                     crud.get_role (Role.id x) db' = Return (Some x) db')
  /\ (forall function, In (FunctionCreate.role_id function) (keys (roles db)) ->
      exists f db',
        org_routers.create_function now function db = Return f db'
        /\ org_routers.read_function (Function.id f) db' = Return f db'
        /\ row_count db' = (row_count db + 1)%nat
        /\ tasks db' = tasks db /\ departments db' = departments db
        /\ roles db' = roles db
        /\ forall x, In x (rows (functions db)) ->
                     crud.get_function (Function.id x) db' = Return (Some x) db').
Proof.
  intros (Ht & Hd & Hr & Hf & _). split; [|split; [|split]].
  - intros task. pose proof (fresh_key _ Ht) as Hk.
    pose proof (create_task_returns db now task Hk) as Hc.
    do 2 eexists. split; [|split; [|split; [|split; [|split; [|split]]]]].
    + unfold routers.create_task, response_model, bind. rewrite Hc. reflexivity.
    + pose proof (by_key_appended _ (Task_new now task (next_id (tasks db))) Hk) as E.
      unfold routers.read_task, response_model, crud.get_task, bind, select, query_Task,
        insert. simpl in *. now rewrite E.
    + unfold row_count, insert; cbn. rewrite length_app. simpl. lia.
    + reflexivity.
    + reflexivity.
    + reflexivity.
    + intros x Hx. unfold crud.get_task, select, query_Task. f_equal.
      cbn [set_tasks tasks].
      exact (by_key_kept (Task_new now task) (tasks db) x Ht eq_refl Hx).
  - intros department. pose proof (fresh_key _ Hd) as Hk.
    pose proof (create_department_returns db now department Hk) as Hc.
    do 2 eexists. split; [|split; [|split; [|split; [|split; [|split]]]]].
    + unfold org_routers.create_department, response_model, bind. rewrite Hc. reflexivity.
    + pose proof (by_key_appended _
                    (Department_new now department (next_id (departments db))) Hk) as E.
      unfold crud.get_department, select, query_Department, insert. simpl in *.
      now rewrite E.
    + unfold row_count, insert; cbn. rewrite length_app. simpl. lia.
    + reflexivity.
    + reflexivity.
    + reflexivity.
    + intros x Hx. unfold crud.get_department, select, query_Department. f_equal.
      cbn [set_departments departments].
      exact (by_key_kept (Department_new now department) (departments db) x Hd eq_refl Hx).
  - intros role Hfk. pose proof (fresh_key _ Hr) as Hk.
    pose proof (create_role_returns db now role Hk) as Hc.
    apply department_exists_iff in Hfk. rewrite Hfk in Hc.
    do 2 eexists. split; [|split; [|split; [|split; [|split; [|split]]]]].
    + unfold org_routers.create_role, response_model, bind. rewrite Hc. reflexivity.
    + pose proof (by_key_appended _ (Role_new now role (next_id (roles db))) Hk) as E.
      unfold crud.get_role, select, query_Role, insert. simpl in *. now rewrite E.
    + unfold row_count, insert; cbn. rewrite length_app. simpl. lia.
    + reflexivity.
    + reflexivity.
    + reflexivity.
    + intros x Hx. unfold crud.get_role, select, query_Role. f_equal.
      cbn [set_roles roles].
      exact (by_key_kept (Role_new now role) (roles db) x Hr eq_refl Hx).
  - intros function Hfk. pose proof (fresh_key _ Hf) as Hk.
    pose proof (create_function_returns db now function Hk) as Hc.
    apply role_exists_iff in Hfk. rewrite Hfk in Hc.
    do 2 eexists. split; [|split; [|split; [|split; [|split; [|split]]]]].
    + unfold org_routers.create_function, response_model, bind. rewrite Hc. reflexivity.
    + pose proof (by_key_appended _
                    (Function_new now function (next_id (functions db))) Hk) as E.
      unfold org_routers.read_function, response_model, crud.get_function, bind, select,
        query_Function, insert. simpl in *. now rewrite E.
    + unfold row_count, insert; cbn. rewrite length_app. simpl. lia.
    + reflexivity.
    + reflexivity.
    + reflexivity.
    + intros x Hx. unfold crud.get_function, select, query_Function. f_equal.
      cbn [set_functions functions].
      exact (by_key_kept (Function_new now function) (functions db) x Hf eq_refl Hx).
Qed.

Lemma create_adds_one_row_witness :
  wf sample_db
  /\ In 3 (keys (roles sample_db))
  /\ exists f db',
       org_routers.create_function 70 (FunctionCreate.mk "Invoice" None 3) sample_db
       = Return f db'
       /\ org_routers.read_function (Function.id f) db' = Return f db'
       /\ row_count db' = (row_count sample_db + 1)%nat.
Proof.
  assert (H3 : In 3 (keys (roles sample_db))) by (simpl; tauto).
  split; [exact sample_db_wf|]. split; [exact H3|].
  destruct (proj2 (proj2 (proj2 (create_adds_one_row sample_db 70 sample_db_wf)))
              (FunctionCreate.mk "Invoice" None 3) H3)
    as (f & db' & Hc & Hr & Hn & _).
  exists f, db'. split; [exact Hc|]. split; [exact Hr|exact Hn].
Defined.

(** X14: GET /tasks/{id} and GET /functions/{id} answer 404 exactly when no
    row has that id; otherwise they return, with status 200, a stored row
    with that id, which is what the repository get returns. *)
Theorem read_flat (db : DB) (id : Z) :
  (~ In id (keys (tasks db)) <->
     routers.read_task id db = Raise (HTTPException 404 "Task not found") db)
  /\ (In id (keys (tasks db)) ->
      exists t, routers.read_task id db = Return t db
                /\ crud.get_task id db = Return (Some t) db
                /\ In t (rows (tasks db)) /\ Task.id t = id)
  /\ (~ In id (keys (functions db)) <->
      org_routers.read_function id db
      = Raise (HTTPException 404 "Function not found") db)
  /\ (In id (keys (functions db)) ->
      exists f, org_routers.read_function id db = Return f db
                /\ crud.get_function id db = Return (Some f) db
                /\ In f (rows (functions db)) /\ Function.id f = id).
Proof.
  split; [|split; [|split]].
  - destruct (get_task_cases db id) as [(old & Hg & Hin & Hid)|[Hg Hno]];
      unfold routers.read_task, response_model, bind; rewrite Hg; split; intros H;
      try reflexivity; try exact Hno; try discriminate.
    exfalso. apply H. rewrite <- Hid. now apply in_map.
  - intros Hin. destruct (get_task_cases db id) as [(old & Hg & Hold & Hid)|[_ Hno]];
      [|contradiction].
    exists old. repeat split; auto.
    unfold routers.read_task, response_model, bind. now rewrite Hg.
  - destruct (get_function_cases db id) as [(old & Hg & Hin & Hid)|[Hg Hno]];
      unfold org_routers.read_function, response_model, bind; rewrite Hg; split; intros H;
      try reflexivity; try exact Hno; try discriminate.
    exfalso. apply H. rewrite <- Hid. now apply in_map.
  - intros Hin. destruct (get_function_cases db id) as [(old & Hg & Hold & Hid)|[_ Hno]];
      [|contradiction].
    exists old. repeat split; auto.
    unfold org_routers.read_function, response_model, bind. now rewrite Hg.
Qed.

Lemma read_flat_witness :
  In 1 (keys (tasks sample_db))
  /\ exists t, routers.read_task 1 sample_db = Return t sample_db /\ Task.id t = 1.
Proof.
  assert (H1 : In 1 (keys (tasks sample_db))) by (simpl; tauto).
  split; [exact H1|].
  destruct (proj1 (proj2 (read_flat sample_db 1)) H1) as (t & Hr & _ & _ & Hid).
  exists t. split; [exact Hr|exact Hid].
Defined.
